(** * Unused-Dependency-Cleaner: a shallow embedding and its verified properties

    The development follows the TypeScript sources
    [src/analyzer.ts], [src/cleaner.ts], [src/config.ts] and [src/cli.ts].

    - JavaScript strings are modelled by [string]; each character stands for
      one code unit in the range 0..255.
    - A JavaScript [Set<string>] whose iteration order is never observed is a
      [gset string].
    - A JavaScript object used as a dictionary keeps its own properties in
      creation order ([JsObject.t]); [JsObject.ownKeys] gives the order in
      which [Object.keys], the spread syntax and [JSON.stringify] see them.
    - [async]/[await] in the sources is sequential; a rejected promise is a
      [Throw] result.
    - The file system is an explicit value ([World]); console output is an
      explicit list of [LogEntry]. *)

From stdpp Require Import gmap strings list sorting.
From Stdlib Require Import Ascii NArith DecimalString.

(* [set_solver] clears hypotheses by name; the notice about absent ones is noise. *)
Set Warnings "-clear-no-such-hyp".

(** ** JavaScript string primitives used by the sources *)

Module JsString.

(** [s.startsWith(prefix)] *)
Fixpoint startsWith (s prefix : string) {struct prefix} : bool :=
  match prefix with
  | EmptyString => true
  | String p prefix' =>
      match s with
      | EmptyString => false
      | String c s' => if Ascii.eqb c p then startsWith s' prefix' else false
      end
  end.

(** [s.endsWith(suffix)] *)
Definition endsWith (s suffix : string) : bool :=
  let n := String.length s in
  let m := String.length suffix in
  if (m <=? n)%nat then String.eqb (String.substring (n - m) m s) suffix else false.

(** [s.split(sep)] for a separator of one character.  The result is never
    empty: a string without the separator is returned as its only part. *)
Fixpoint split (sep : ascii) (s : string) : list string :=
  match s with
  | EmptyString => [EmptyString]
  | String c s' =>
      if Ascii.eqb c sep then EmptyString :: split sep s'
      else match split sep s' with
           | [] => [String c EmptyString]
           | part :: parts => String c part :: parts
           end
  end.

(** [s.replace(pattern, replacement)] for a pattern of one character: only
    the first occurrence is replaced. *)
Fixpoint replace (pattern : ascii) (replacement s : string) : string :=
  match s with
  | EmptyString => EmptyString
  | String c s' =>
      if Ascii.eqb c pattern then replacement +:+ s'
      else String c (replace pattern replacement s')
  end.

(** White space and line terminators among the code units 0..255. *)
Definition isWhiteSpace (c : ascii) : bool :=
  let n := nat_of_ascii c in
  ((9 <=? n)%nat && (n <=? 13)%nat) || (n =? 32)%nat || (n =? 160)%nat.

Fixpoint trimStart (s : string) : string :=
  match s with
  | EmptyString => EmptyString
  | String c s' => if isWhiteSpace c then trimStart s' else s
  end.

Fixpoint trimEnd (s : string) : string :=
  match s with
  | EmptyString => EmptyString
  | String c s' =>
      match trimEnd s' with
      | EmptyString => if isWhiteSpace c then EmptyString else String c EmptyString
      | t => String c t
      end
  end.

(** [s.trim()] *)
Definition trim (s : string) : string := trimEnd (trimStart s).

(** A string used as a condition: only the empty string is falsy. *)
Definition truthy (s : string) : bool := negb (String.eqb s "").

(** Decimal rendering of a number inside a template literal. *)
Definition ofNat (n : nat) : string := NilEmpty.string_of_uint (Nat.to_uint n).

End JsString.

(** ** [path.isAbsolute] of Node.js, for both path flavours *)

Module Path.

Inductive platform := Posix | Win32.

Definition isPathSeparator (c : ascii) : bool :=
  Ascii.eqb c "/" || Ascii.eqb c "\".

Definition isWindowsDeviceRoot (c : ascii) : bool :=
  let n := nat_of_ascii c in
  ((65 <=? n)%nat && (n <=? 90)%nat) || ((97 <=? n)%nat && (n <=? 122)%nat).

Definition isAbsolute (p : platform) (path : string) : bool :=
  match p with
  | Posix =>
      match path with
      | String c _ => Ascii.eqb c "/"
      | EmptyString => false
      end
  | Win32 =>
      match path with
      | EmptyString => false
      | String c rest =>
          isPathSeparator c ||
          match rest with
          | String c1 (String c2 _) =>
              isWindowsDeviceRoot c && Ascii.eqb c1 ":" && isPathSeparator c2
          | _ => false
          end
      end
  end.

End Path.

(** ** JavaScript objects used as dictionaries *)

Module JsObject.

(** Own enumerable string-keyed properties, in creation order.  Every
    object below is built from [empty] by [set] and [delete], so no key
    occurs twice. *)
Definition t (V : Type) : Type := list (string * V).

Definition empty {V : Type} : t V := [].

(** [o[k]] for an own property ([None] is [undefined]). *)
Fixpoint get {V : Type} (k : string) (o : t V) : option V :=
  match o with
  | [] => None
  | (k', v) :: o' => if String.eqb k' k then Some v else get k o'
  end.

(** [o[k] = v]: an existing property keeps its place, a new one is
    created last. *)
Fixpoint set {V : Type} (k : string) (v : V) (o : t V) : t V :=
  match o with
  | [] => [(k, v)]
  | (k', v') :: o' =>
      if String.eqb k' k then (k', v) :: o' else (k', v') :: set k v o'
  end.

(** [delete o[k]] *)
Fixpoint delete {V : Type} (k : string) (o : t V) : t V :=
  match o with
  | [] => []
  | (k', v') :: o' =>
      if String.eqb k' k then delete k o' else (k', v') :: delete k o'
  end.

(** The object that [JSON.parse] builds for the members of a JSON object
    text, read from left to right (a repeated member overwrites). *)
Definition fromEntries {V : Type} (members : list (string * V)) : t V :=
  fold_left (fun o kv => set (fst kv) (snd kv) o) members empty.

Definition digitValue (c : ascii) : option N :=
  let n := N_of_ascii c in
  if (48 <=? n)%N && (n <=? 57)%N then Some (n - 48)%N else None.

Fixpoint parseDigits (s : string) (acc : N) : option N :=
  match s with
  | EmptyString => Some acc
  | String c s' =>
      match digitValue c with
      | Some d => parseDigits s' (10 * acc + d)%N
      | None => None
      end
  end.

(** A property key is an array index when it is the canonical decimal
    spelling of an integer between 0 and 2^32 - 2. *)
Definition arrayIndex (k : string) : option N :=
  match k with
  | EmptyString => None
  | String c rest =>
      if Ascii.eqb c "0" then
        match rest with EmptyString => Some 0%N | _ => None end
      else
        match parseDigits k 0 with
        | Some n => if (n <? 4294967295)%N then Some n else None
        | None => None
        end
  end.

Definition isArrayIndex (k : string) : bool :=
  match arrayIndex k with Some _ => true | None => false end.

Definition indexValue (k : string) : N := default 0%N (arrayIndex k).

Definition indexLe (k1 k2 : string) : Prop := (indexValue k1 <= indexValue k2)%N.

#[global] Instance indexLe_dec : RelDecision indexLe.
Proof. intros k1 k2. unfold indexLe. apply _. Defined.

(** [Object.keys(o)]: array indices in ascending numeric order, then the
    other keys in creation order. *)
Definition ownKeys {V : Type} (o : t V) : list string :=
  let ks := map fst o in
  merge_sort indexLe (List.filter isArrayIndex ks)
    ++ List.filter (fun k => negb (isArrayIndex k)) ks.

(** [target[k] = source[k]] for a key of [source]. *)
Definition copyKey {V : Type} (source target : t V) (k : string) : t V :=
  match get k source with
  | Some v => set k v target
  | None => target
  end.

(** [{ ...target, ...source }]: the properties of [source] are copied onto
    [target] in the order of [ownKeys source]. *)
Definition spread {V : Type} (target source : t V) : t V :=
  fold_left (copyKey source) (ownKeys source) target.

(** The members written by [JSON.stringify(o)]. *)
Definition entries {V : Type} (o : t V) : list (string * V) :=
  omap (fun k => match get k o with Some v => Some (k, v) | None => None end)
       (ownKeys o).

End JsObject.

(** ** Results of operations that may throw *)

Record Error := mkError { message : string }.

Inductive result (A : Type) : Type :=
| Ok (value : A)
| Throw (err : Error).

Arguments Ok {A} value.
Arguments Throw {A} err.

(** ** Console output *)

Inductive LogLevel :=
| LevelDebug | LevelInfo | LevelWarn | LevelError | LevelSuccess | LevelPlain
| LevelSpinner.

(** One call of a [logger] method with its text; [LevelPlain] is
    [console.log], a [console.warn] is a [LevelWarn], a [console.error] is a
    [LevelError], and [LevelSpinner] is a text shown by the spinner. *)
Record LogEntry := mkLog { level : LogLevel; text : string }.

(** ** The project on disk *)

(** The text of [package.json]: those members of the top-level JSON object
    whose value is an object of strings (the dependency sections among
    them), each with its own members, all in textual order.  Members of
    other shapes (name, version, ...) are never looked at by the sources and
    are left out. *)
Definition PackageJson : Type := list (string * list (string * string)).

Inductive ManifestFile :=
| ManifestMissing
| ManifestUnreadable (why : Error)
| Manifest (members : PackageJson).

(** The module references of a syntax tree, as Babel's node types have them. *)
Inductive Callee :=
| Identifier (name : string)
| Import
| OtherCallee.

Inductive Argument :=
| StringLiteral (value : string)
| OtherArgument.

Inductive Node :=
| ImportDeclaration (source : string)
| CallExpression (callee : Callee) (arguments : list Argument)
| ExportNamedDeclaration (source : option string)
| ExportAllDeclaration (source : option string)
| OtherNode.

(** What [fs.readFile] followed by [parse] gives for one source file: an
    exception, raised before any visitor has run, or a syntax tree, given by
    its nodes in the order in which [traverse] visits them. *)
Inductive Parsed :=
| ParseFailure (why : Error)
| Ast (nodes : list Node).

Record SourceFile := mkSourceFile { path : string; parsed : Parsed }.

(** What [fs.pathExists] and [fs.readFile] give for a configuration file. *)
Inductive ConfigFile :=
| ConfigAbsent
| ConfigUnreadable
| ConfigContent (content : string).

(** The machine and the project directory: the path flavour of the
    platform, [process.cwd()], the state of [package.json] and of
    [package.json.bak], the source files that the glob finds, each with the
    outcome of reading and parsing it, and the configuration files, looked
    up by the name that is resolved against the project root. *)
Record World := mkWorld {
  platform : Path.platform;
  cwd : string;
  manifest : ManifestFile;
  backup : option ManifestFile;
  sourceFiles : list SourceFile;
  configFile : string -> ConfigFile;
}.

(** [fs.readJSON] of the manifest text: the object that [JSON.parse] builds. *)
Definition readJSON (members : PackageJson) : JsObject.t (JsObject.t string) :=
  JsObject.fromEntries
    (map (fun kv => (fst kv, JsObject.fromEntries (snd kv))) members).

(** [fs.writeJSON]: the members that [JSON.stringify] writes. *)
Definition writeJSON (pkg : JsObject.t (JsObject.t string)) : PackageJson :=
  map (fun kv => (fst kv, JsObject.entries (snd kv))) (JsObject.entries pkg).

(** ** [src/analyzer.ts] *)

Module AnalyzerOptions.

Record t := mk {
  rootDir : string;
  checkDevDeps : option bool;
  ignore : option (list string);
  verbose : option bool;
}.

End AnalyzerOptions.

Module DependencyUsage.

Record t := mk {
  name : string;
  isUsed : bool;
  filesUsedIn : list string;
}.

End DependencyUsage.

Module Analyzer.

(** The private fields of the class. *)
Record t := mk {
  rootDir : string;
  checkDevDeps : bool;
  ignore : gset string;
  verbose : bool;
}.

(** The constructor.  [path.resolve] only makes [rootDir] absolute; paths
    are kept as given, since the [World] is already the project at that
    root. *)
Definition new (options : AnalyzerOptions.t) : t :=
  {| rootDir := AnalyzerOptions.rootDir options;
     checkDevDeps := default false (AnalyzerOptions.checkDevDeps options);
     ignore := list_to_set (default [] (AnalyzerOptions.ignore options));
     verbose := default false (AnalyzerOptions.verbose options) |}.

(** The usage set under construction, with the console output so far. *)
Record Scan := mkScan {
  used : gset string;
  log : list LogEntry;
}.

Definition logTo (l : LogLevel) (msg : string) (st : Scan) : Scan :=
  {| used := used st; log := log st ++ [mkLog l msg] |}.

Definition add (x : string) (st : Scan) : Scan :=
  {| used := used st ∪ {[x]}; log := log st |}.

(** [{ ...target, ...section }] where the section may be [undefined]. *)
Definition spreadSection (target : JsObject.t string)
    (section : option (JsObject.t string)) : JsObject.t string :=
  match section with
  | Some s => JsObject.spread target s
  | None => target
  end.

Definition getDependencies (this : t) (w : World) : result (JsObject.t string) :=
  match manifest w with
  | ManifestMissing => Throw (mkError "package.json not found")
  | ManifestUnreadable why => Throw why
  | Manifest members =>
      let pkg := readJSON members in
      let deps := spreadSection JsObject.empty (JsObject.get "dependencies" pkg) in
      let deps :=
        if checkDevDeps this
        then spreadSection (JsObject.spread JsObject.empty deps)
                           (JsObject.get "devDependencies" pkg)
        else deps in
      Ok deps
  end.

(** The glob over the project is the list of source files of the [World]. *)
Definition getSourceFiles (this : t) (w : World) : list SourceFile :=
  sourceFiles w.

(** The package name that [addDependency] derives from a specifier which is
    neither local nor absolute. *)
Definition pkgNameOf (importPath : string) : string :=
  if JsString.startsWith importPath "@" then
    match JsString.split "/" importPath with
    | p0 :: p1 :: _ => p0 +:+ "/" +:+ p1
    | _ => importPath
    end
  else
    match JsString.split "/" importPath with
    | p0 :: _ => p0
    | [] => importPath
    end.

(** The name of the type-declaration package that is added with [pkgName]. *)
Definition typesOf (pkgName : string) : string :=
  "@types/" +:+ JsString.replace "/" "__" (JsString.replace "@" "" pkgName).

Definition addDependency (this : t) (w : World) (set : Scan) (importPath : string) : Scan :=
  if JsString.startsWith importPath "." then set
  else if Path.isAbsolute (platform w) importPath then set
  else
    let pkgName := pkgNameOf importPath in
    let set :=
      if verbose this
      then logTo LevelDebug
             ("Found import: " +:+ pkgName +:+ " (raw: " +:+ importPath +:+ ")") set
      else set in
    add (typesOf pkgName) (add pkgName set).

(** The four visitors handed to [traverse]. *)
Definition visit (this : t) (w : World) (set : Scan) (node : Node) : Scan :=
  match node with
  | ImportDeclaration source => addDependency this w set source
  | CallExpression callee arguments =>
      let isRequire :=
        match callee with
        | Identifier name => String.eqb name "require"
        | Import => true
        | OtherCallee => false
        end in
      if isRequire then
        match arguments with
        | StringLiteral value :: _ => addDependency this w set value
        | _ => set
        end
      else set
  | ExportNamedDeclaration (Some source) => addDependency this w set source
  | ExportNamedDeclaration None => set
  | ExportAllDeclaration (Some source) => addDependency this w set source
  | ExportAllDeclaration None => set
  | OtherNode => set
  end.

(** [dep.split('/')[0]]; [split] never returns the empty list. *)
Definition scopeOf (dep : string) : string :=
  match JsString.split "/" dep with
  | p0 :: _ => p0
  | [] => EmptyString
  end.

(** The scopes of the used names that start with [@]. *)
Definition usedScopesOf (used : gset string) : gset string :=
  set_map scopeOf (filter (fun usedDep => JsString.startsWith usedDep "@" = true) used).

(** One step of the [forEach] over the declared names. *)
Definition shareScope (usedScopes : gset string) (used : gset string) (dep : string)
    : gset string :=
  if JsString.startsWith dep "@" then
    if bool_decide (scopeOf dep ∈ usedScopes) then used ∪ {[dep]} else used
  else used.

(** "Special Handling: React DOM" *)
Definition reactDom (used : gset string) : gset string :=
  if bool_decide ("react" ∈ used) then used ∪ {["react-dom"]} else used.

(** The verdict for one declared name. *)
Definition verdict (this : t) (usedDeps : gset string) (name : string)
    : DependencyUsage.t :=
  if bool_decide (name ∈ ignore this) then
    DependencyUsage.mk name true ["(ignored)"]
  else
    DependencyUsage.mk name (bool_decide (name ∈ usedDeps)) [].

Section WithPath.

(** [path.relative] of Node.js, only used for a debug message. *)
Variable path_relative : string -> string -> string.

(** The body of the loop over the files. *)
Definition scanFile (this : t) (w : World) (set : Scan) (file : SourceFile) : Scan :=
  let set :=
    if verbose this
    then logTo LevelDebug
           ("Scanning file: " +:+ path_relative (rootDir this) (path file)) set
    else set in
  match parsed file with
  | Ast nodes => fold_left (visit this w) nodes set
  | ParseFailure err =>
      logTo LevelWarn
        ("Failed to parse " +:+ path file +:+ ": " +:+ message err
           +:+ ". Usage in this file may be missed.") set
  end.

(** The loop over the files, from the empty set. *)
Definition scanFiles (this : t) (w : World) (files : list SourceFile) : Scan :=
  fold_left (scanFile this w) files {| used := ∅; log := [] |}.

Definition findUsedDependencies (this : t) (w : World) (files : list SourceFile)
    : result (gset string) * list LogEntry :=
  let scanned := scanFiles this w files in
  let used := reactDom (used scanned) in
  let usedScopes := usedScopesOf used in
  if (0 <? size usedScopes)%nat then
    match getDependencies this w with
    | Throw err => (Throw err, log scanned)
    | Ok deps =>
        (Ok (fold_left (shareScope usedScopes) (JsObject.ownKeys deps) used),
         log scanned)
    end
  else (Ok used, log scanned).

Definition analyze (this : t) (w : World)
    : result (list DependencyUsage.t) * list LogEntry :=
  match getDependencies this w with
  | Throw err => (Throw err, [])
  | Ok deps =>
      let files := getSourceFiles this w in
      match findUsedDependencies this w files with
      | (Throw err, out) => (Throw err, out)
      | (Ok usedDeps, out) => (Ok (map (verdict this usedDeps) (JsObject.ownKeys deps)), out)
      end
  end.

End WithPath.

End Analyzer.

(** ** [src/cleaner.ts]

    Only the effect on the files is modelled; the messages of the cleaner
    are left out. *)

Module Cleaner.

Record t := mk { rootDir : string }.

Definition new (rootDir : string) : t := mk rootDir.

(** [fs.copy] of the manifest to [package.json.bak]; it throws a system
    error, recorded as [ENOENT], when there is nothing to copy. *)
Definition backupPackageJson (this : t) (w : World) : result World :=
  match manifest w with
  | ManifestMissing => Throw (mkError "ENOENT")
  | m =>
      Ok {| platform := platform w; cwd := cwd w; manifest := manifest w;
            backup := Some m; sourceFiles := sourceFiles w;
            configFile := configFile w |}
  end.

Definition depTypes : list string :=
  ["dependencies"; "devDependencies"; "peerDependencies"; "optionalDependencies"].

(** The body of the inner [forEach]: [if (section[dep]) delete section[dep]]. *)
Definition removeDep (section : JsObject.t string) (dep : string) : JsObject.t string :=
  match JsObject.get dep section with
  | Some version =>
      if JsString.truthy version then JsObject.delete dep section else section
  | None => section
  end.

(** The body of the outer [forEach].  The section object is changed in
    place, so [pkg] sees the deletions. *)
Definition cleanSection (dependenciesToRemove : list string)
    (pkg : JsObject.t (JsObject.t string)) (depType : string)
    : JsObject.t (JsObject.t string) :=
  match JsObject.get depType pkg with
  | Some section =>
      let section := fold_left removeDep dependenciesToRemove section in
      if (length (JsObject.ownKeys section) =? 0)%nat
      then JsObject.delete depType pkg
      else JsObject.set depType section pkg
  | None => pkg
  end.

(** The state of the disk after the call, when it returns; a [Throw] tells
    the error only. *)
Definition removeDependencies (this : t) (dependenciesToRemove : list string)
    (w : World) : result World :=
  if (length dependenciesToRemove =? 0)%nat then Ok w
  else
    match backupPackageJson this w with
    | Throw err => Throw err
    | Ok w =>
        match manifest w with
        | ManifestMissing => Throw (mkError "ENOENT")
        | ManifestUnreadable why => Throw why
        | Manifest members =>
            let pkg := readJSON members in
            let pkg := fold_left (cleanSection dependenciesToRemove) depTypes pkg in
            Ok {| platform := platform w; cwd := cwd w;
                  manifest := Manifest (writeJSON pkg);
                  backup := backup w; sourceFiles := sourceFiles w;
                  configFile := configFile w |}
        end
    end.

End Cleaner.

(** ** [src/config.ts] *)

(** JSON values, as [JSON.parse] returns them.  A number is carried by the
    text that [String(n)] gives for it. *)
#[warnings="-register-all"] Inductive json :=
| JNull
| JBool (b : bool)
| JNumber (text : string)
| JString (s : string)
| JArray (items : list json)
| JObject (members : list (string * json)).

Module JsValue.

(** [String(value)].  An array is joined with [","], its [null] elements
    giving the empty string.  An object gives ["[object Object]"]; the
    conversion of an object with a member named [toString] throws
    instead, and is left out. *)
Fixpoint toString (value : json) : string :=
  match value with
  | JNull => "null"
  | JBool b => if b then "true" else "false"
  | JNumber text => text
  | JString s => s
  | JArray items =>
      String.concat ","
        ((fix each (items : list json) : list string :=
            match items with
            | [] => []
            | JNull :: rest => EmptyString :: each rest
            | item :: rest => toString item :: each rest
            end) items)
  | JObject _ => "[object Object]"
  end.

(** [array.join(separator)] *)
Definition join (separator : string) (array : list json) : string :=
  String.concat separator
    (map (fun item => match item with JNull => EmptyString | _ => toString item end)
       array).

End JsValue.

Module Config.

(** [ignore] is declared [string[]]; the items of the [ignore] array of a
    JSON file are pushed as they are, whatever their type. *)
Record t := mk { ignore : list json }.

Definition defaultIgnore : list string := ["@types/node"; "typescript"; "ts-node"].

(** [config.ignore.push(...entries)] *)
Definition push (config : t) (entries : list json) : t :=
  mk (ignore config ++ entries).

Definition possibleConfigFiles (ignoreFile : option string) : list string :=
  match ignoreFile with
  | Some file => if JsString.truthy file then [file] else [".unusedignore"; ".unusedrc.json"]
  | None => [".unusedignore"; ".unusedrc.json"]
  end.

(** The lines of a line-separated ignore file that count. *)
Definition ignoreLines (content : string) : list string :=
  List.filter
    (fun l => JsString.truthy l && negb (JsString.startsWith l "#"))
    (map JsString.trim (JsString.split "010" content)).

Section WithJson.

(** [JSON.parse]; [None] when it throws. *)
Variable JSON_parse : string -> option json.

Definition warnParse (file : string) : LogEntry :=
  mkLog LevelWarn ("Failed to parse config file: " +:+ file).

(** The body of the loop over the possible configuration files. *)
Definition loadFile (w : World) (acc : t * list LogEntry) (file : string)
    : t * list LogEntry :=
  let (config, out) := acc in
  match configFile w file with
  | ConfigAbsent => (config, out)
  | ConfigUnreadable => (config, out ++ [warnParse file])
  | ConfigContent content =>
      if negb (JsString.endsWith file ".json") then
        (push config (map JString (ignoreLines content)), out)
      else
        match JSON_parse content with
        | None => (config, out ++ [warnParse file])
        | Some JNull => (config, out ++ [warnParse file])
        | Some (JObject members) =>
            match JsObject.get "ignore" (JsObject.fromEntries members) with
            | Some (JArray items) => (push config items, out)
            | _ => (config, out)
            end
        | Some _ => (config, out)
        end
  end.

Definition loadConfig (w : World) (ignoreFile : option string) : t * list LogEntry :=
  fold_left (loadFile w) (possibleConfigFiles ignoreFile)
    (mk (map JString defaultIgnore), []).

End WithJson.

End Config.

(** [ignore: config.ignore] in the options of the analyzer.  The analyzer
    turns the array into a [Set] and asks it nothing but [has(name)] for the
    names of the manifest, which are strings; an element that is not a
    string answers none of these questions.  The options of the model take
    the elements that are strings. *)
Definition ignoredNames (config : Config.t) : list string :=
  omap (fun entry => match entry with JString name => Some name | _ => None end)
    (Config.ignore config).

(** ** [src/cli.ts]: the [scan] command *)

Module Cli.

(** The options object that commander hands to the action. *)
Record ScanOptions := mkScanOptions {
  dev : option bool;
  ignore : option string;
  verbose : option bool;
}.

(** What the user sees of one run: the exit code of the process and the
    console output.  [LevelSpinner] entries are the spinner's texts;
    [console.error(err)] is recorded with the message of the error. *)
Record Outcome := mkOutcome {
  exitCode : nat;
  output : list LogEntry;
}.

Section WithRuntime.

Variable path_relative : string -> string -> string.
Variable JSON_parse : string -> option json.

Definition report (unused : list DependencyUsage.t) : list LogEntry :=
  if (length unused =? 0)%nat then
    [mkLog LevelSuccess "No unused dependencies found!"]
  else
    mkLog LevelWarn
      ("Found " +:+ JsString.ofNat (length unused) +:+ " unused dependencies:")
    :: map (fun dep => mkLog LevelPlain ("- " +:+ DependencyUsage.name dep)) unused.

Definition scanAction (options : ScanOptions) (w : World) : Outcome :=
  let rootDir := cwd w in
  let (config, out0) := Config.loadConfig JSON_parse w (ignore options) in
  let out1 :=
    if default false (verbose options)
    then [mkLog LevelDebug
            ("Loaded config with ignores: " +:+ JsValue.join ", " (Config.ignore config))]
    else [] in
  let spinner := [mkLog LevelSpinner "Scanning project..."] in
  let analyzer :=
    Analyzer.new
      (AnalyzerOptions.mk rootDir (dev options) (Some (ignoredNames config)) None) in
  match Analyzer.analyze path_relative analyzer w with
  | (Ok results, out2) =>
      let unused := List.filter (fun r => negb (DependencyUsage.isUsed r)) results in
      mkOutcome 0 (out0 ++ out1 ++ spinner ++ out2 ++ report unused)
  | (Throw err, out2) =>
      mkOutcome 1
        (out0 ++ out1 ++ spinner ++ out2
           ++ [mkLog LevelSpinner "Scan failed"; mkLog LevelError (message err)]
           ++ (if default false (verbose options)
               then [mkLog LevelError (message err)] else []))
  end.

End WithRuntime.

End Cli.

(** ** [src/cli.ts]: the [clean] command

    The result is the exit code of the process and the project directory
    after the command; the console output of this command is left out. *)

Module CliClean.

(** The options object that commander hands to the action. *)
Record Options := mkOptions {
  dryRun : option bool;
  dev : option bool;
  ignore : option string;
  verbose : option bool;
}.

Record Outcome := mkOutcome {
  exitCode : nat;
  disk : World;
}.

(** [unused.includes(packageName)] *)
Definition includes (packageName : string) (unused : list string) : bool :=
  existsb (String.eqb packageName) unused.

(** The names to remove once the optional [packageName] argument has been
    taken into account; [None] when the action returns early because the
    named package is not among the unused ones. *)
Definition target (packageName : option string) (unused : list string)
    : option (list string) :=
  match packageName with
  | Some name =>
      if JsString.truthy name then
        if includes name unused then Some [name] else None
      else Some unused
  | None => Some unused
  end.

Section WithRuntime.

Variable path_relative : string -> string -> string.
Variable JSON_parse : string -> option json.

(** The [catch] branch after [removeDependencies] cannot be taken once
    [analyze] has read the manifest; it is given the project as it was. *)
Definition cleanAction (packageName : option string) (options : Options) (w : World)
    : Outcome :=
  let rootDir := cwd w in
  let (config, _) := Config.loadConfig JSON_parse w (ignore options) in
  let analyzer :=
    Analyzer.new
      (AnalyzerOptions.mk rootDir (dev options) (Some (ignoredNames config)) None) in
  match Analyzer.analyze path_relative analyzer w with
  | (Ok results, _) =>
      let unused :=
        map DependencyUsage.name
          (List.filter (fun r => negb (DependencyUsage.isUsed r)) results) in
      match target packageName unused with
      | None => mkOutcome 0 w
      | Some unused =>
          if (length unused =? 0)%nat then mkOutcome 0 w
          else if default false (dryRun options) then mkOutcome 0 w
          else
            match Cleaner.removeDependencies (Cleaner.new rootDir) unused w with
            | Ok w' => mkOutcome 0 w'
            | Throw err => mkOutcome 1 w
            end
      end
  | (Throw err, _) => mkOutcome 1 w
  end.

End WithRuntime.

End CliClean.

(** ** Vocabulary of the specification and of the proofs *)

(** A specifier that the normalizer must not turn into an identifier: a
    relative path or an absolute file path. *)
Definition isPathLike (p : Path.platform) (specifier : string) : bool :=
  JsString.startsWith specifier "." || Path.isAbsolute p specifier.

(** No member of a usage set is a relative or an absolute path. *)
Definition pathFree (p : Path.platform) (usage : gset string) : Prop :=
  ∀ x, x ∈ usage → isPathLike p x = false.

(** [contains c s]: the character [c] occurs in [s]. *)
Fixpoint contains (c : ascii) (s : string) : bool :=
  match s with
  | EmptyString => false
  | String c' s' => Ascii.eqb c' c || contains c s'
  end.

(** The synthetic identifier in the words of the specification: strip the
    leading [@], replace the internal [/] by [__], prefix [@types/]. *)
Definition stripLeadingAt (c : string) : string :=
  match c with
  | String a rest => if Ascii.eqb a "@" then rest else c
  | EmptyString => c
  end.

Definition typesOfSpec (c : string) : string :=
  "@types/" +:+ JsString.replace "/" "__" (stripLeadingAt c).

(** The names declared in one section of the manifest, in declaration
    order (a repeated name counts once, at its first place). *)
Definition declaredIn (section : string) (members : PackageJson) : list string :=
  match JsObject.get section (readJSON members) with
  | Some s => map fst s
  | None => []
  end.

(** The version range recorded for [name] in [section] of the manifest;
    [None] when the section or the name is absent. *)
Definition versionIn (section name : string) (members : PackageJson) : option string :=
  match JsObject.get section (readJSON members) with
  | Some s => JsObject.get name s
  | None => None
  end.

(** What the cleaner does to the entry of a name that it is asked to
    remove: the entry goes, unless its version is the empty string. *)
Definition afterRemoval (version : option string) : option string :=
  match version with
  | Some v => if JsString.truthy v then None else Some v
  | None => None
  end.

(** What the cleaner does to one dependency section: the named entries
    are removed and a section left without entries is dropped. *)
Definition cleaned (dependenciesToRemove : list string)
    (section : option (JsObject.t string)) : option (JsObject.t string) :=
  match section with
  | Some s =>
      let s := fold_left Cleaner.removeDep dependenciesToRemove s in
      if (length (JsObject.ownKeys s) =? 0)%nat then None else Some s
  | None => None
  end.

(** The names of the verdicts of a result, in order. *)
Definition names (results : list DependencyUsage.t) : list string :=
  map DependencyUsage.name results.

(** A step of the scan adds a fixed set of identifiers, none of them a path,
    whatever the state it starts from. *)
Definition contributes (p : Path.platform) (step : Analyzer.Scan → Analyzer.Scan) : Prop :=
  ∃ X, pathFree p X ∧ ∀ set, Analyzer.used (step set) = Analyzer.used set ∪ X.

(** A step of the scan keeps the console output so far. *)
Definition keepsLog (step : Analyzer.Scan → Analyzer.Scan) : Prop :=
  ∀ set e, e ∈ Analyzer.log set → e ∈ Analyzer.log (step set).

(** The module specifier that a node of the syntax tree refers to: the
    source of an import or of a re-export, or the first argument of
    [require(...)] or [import(...)] when it is a string literal. *)
Definition reference (node : Node) : option string :=
  match node with
  | ImportDeclaration source => Some source
  | CallExpression (Identifier name) (StringLiteral value :: _) =>
      if String.eqb name "require" then Some value else None
  | CallExpression Import (StringLiteral value :: _) => Some value
  | CallExpression _ _ => None
  | ExportNamedDeclaration source => source
  | ExportAllDeclaration source => source
  | OtherNode => None
  end.

(** The module specifiers of a source file; none when it cannot be parsed. *)
Definition references (file : SourceFile) : list string :=
  match parsed file with
  | Ast nodes => omap reference nodes
  | ParseFailure _ => []
  end.

(** The names that the commands report as unused. *)
Definition unusedNames (results : list DependencyUsage.t) : list string :=
  map DependencyUsage.name
    (List.filter (fun r => negb (DependencyUsage.isUsed r)) results).

(** The project with another list of source files. *)
Definition withSourceFiles (w : World) (files : list SourceFile) : World :=
  {| platform := platform w; cwd := cwd w; manifest := manifest w;
     backup := backup w; sourceFiles := files; configFile := configFile w |}.

(** [x] is one of the two identifiers that [addDependency] derives from a
    specifier that is not a path: its package name or the name of the
    type-declaration package. *)
Definition derivedFrom (p : Path.platform) (x specifier : string) : Prop :=
  isPathLike p specifier = false ∧
  (x = Analyzer.pkgNameOf specifier ∨ x = Analyzer.typesOf (Analyzer.pkgNameOf specifier)).

(** A console entry that is a diagnostic: a debug message or a warning. *)
Definition diagnostic (e : LogEntry) : Prop :=
  level e = LevelDebug ∨ level e = LevelWarn.

(** The entries that a configuration file of the project declares: the
    lines that count of a line-separated file, the items of the [ignore]
    array of a JSON file; none when the file is absent, cannot be read or
    parsed, or has no such array. *)
Definition declaredEntries (JSON_parse : string → option json) (w : World)
    (file : string) : list json :=
  match configFile w file with
  | ConfigContent content =>
      if JsString.endsWith file ".json" then
        match JSON_parse content with
        | Some (JObject members) =>
            match JsObject.get "ignore" (JsObject.fromEntries members) with
            | Some (JArray items) => items
            | _ => []
            end
        | _ => []
        end
      else map JString (Config.ignoreLines content)
  | _ => []
  end.

(** A configuration file of the project that exists and cannot be used:
    reading it fails, or it is a [.json] file whose content is not valid
    JSON or is [null]. *)
Definition unusable (JSON_parse : string → option json) (w : World) (file : string)
    : Prop :=
  configFile w file = ConfigUnreadable
  ∨ ∃ content,
      configFile w file = ConfigContent content ∧
      JsString.endsWith file ".json" = true ∧
      (JSON_parse content = None ∨ JSON_parse content = Some JNull).

(** ** Example projects *)

(** A runtime without configuration files, with [path.relative] and
    [JSON.parse] of no interest. *)
Definition noConfig : string → ConfigFile := fun _ => ConfigAbsent.

Definition relativeName : string → string → string := fun _ file => file.

Definition noJson : string → option json := fun _ => None.

Definition defaultAnalyzer : Analyzer.t :=
  Analyzer.new (AnalyzerOptions.mk "/proj" None None None).

Definition devAnalyzer : Analyzer.t :=
  Analyzer.new (AnalyzerOptions.mk "/proj" (Some true) None None).

Definition ignoringAnalyzer : Analyzer.t :=
  Analyzer.new (AnalyzerOptions.mk "/proj" None (Some ["leftpad"]) None).

Definition emptyScan : Analyzer.Scan := Analyzer.mkScan ∅ [].

(** The manifest declares lodash, its types and leftpad; the only source
    file imports lodash. *)
Definition lodashProject : World :=
  mkWorld Path.Posix "/proj"
    (Manifest
       [("dependencies",
         [("lodash", "*"); ("@types/lodash", "*"); ("leftpad", "*")])])
    None
    [mkSourceFile "/proj/index.js" (Ast [ImportDeclaration "lodash"])]
    noConfig.

(** Two packages of one scope are declared and only one is imported. *)
Definition acmeProject : World :=
  mkWorld Path.Posix "/proj"
    (Manifest
       [("dependencies",
         [("@acme/button", "1.0.0"); ("@acme/icons", "1.0.0"); ("leftpad", "*")])])
    None
    [mkSourceFile "/proj/app.tsx" (Ast [ImportDeclaration "@acme/button/lib"])]
    noConfig.

(** A manifest with a runtime, a dev and a peer section. *)
Definition peerProject : World :=
  mkWorld Path.Posix "/proj"
    (Manifest
       [("dependencies", [("lodash", "*")]);
        ("devDependencies", [("jest", "*")]);
        ("peerDependencies", [("react", "*")])])
    None
    [mkSourceFile "/proj/index.js" (Ast [ImportDeclaration "lodash"])]
    noConfig.

(** The second of three files cannot be parsed. *)
Definition goodFile : SourceFile :=
  mkSourceFile "/proj/a.js" (Ast [ImportDeclaration "lodash"]).

Definition brokenFile : SourceFile :=
  mkSourceFile "/proj/b.js" (ParseFailure (mkError "Unexpected token (1:0)")).

Definition lastFile : SourceFile :=
  mkSourceFile "/proj/c.js"
    (Ast [CallExpression (Identifier "require") [StringLiteral "./local"];
          CallExpression (Identifier "require") [StringLiteral "leftpad"]]).

Definition brokenProject : World :=
  mkWorld Path.Posix "/proj"
    (Manifest [("dependencies", [("lodash", "*"); ("leftpad", "*")])])
    None
    [goodFile; brokenFile; lastFile]
    noConfig.


(** A dependency whose version range is the empty string, which npm reads
    as "any version". *)
Definition emptyVersionProject : World :=
  mkWorld Path.Posix "/proj"
    (Manifest [("dependencies", [("leftpad", ""); ("lodash", "*")])])
    None
    [mkSourceFile "/proj/index.js" (Ast [ImportDeclaration "lodash"])]
    noConfig.

(** Two of the declared names are array indices. *)
Definition numberedProject : World :=
  mkWorld Path.Posix "/proj"
    (Manifest [("dependencies", [("lodash", "*"); ("10", "1.0.0"); ("2", "1.0.0")])])
    None
    [mkSourceFile "/proj/index.js" (Ast [ImportDeclaration "lodash"])]
    noConfig.




(** The project lists [leftpad] in [.unusedignore]; [.unusedrc.json] is
    not valid JSON. *)
Definition ignoreFileProject : World :=
  mkWorld Path.Posix "/proj"
    (Manifest [("dependencies", [("lodash", "*"); ("leftpad", "*"); ("chalk", "*")])])
    None
    [mkSourceFile "/proj/index.js" (Ast [ImportDeclaration "lodash"])]
    (fun file =>
       if String.eqb file ".unusedignore"
       then ConfigContent ("# kept on purpose" +:+ String "010" (" leftpad " +:+ String "010" ""))
       else if String.eqb file ".unusedrc.json" then ConfigContent "{ignore: "
       else ConfigAbsent).

(** The text [{"ignore": ["chalk", 1]}], and [JSON.parse] on it. *)
Definition quoted (s : string) : string := String "034" (s +:+ String "034" "").

Definition rcContent : string :=
  "{" +:+ quoted "ignore" +:+ ": [" +:+ quoted "chalk" +:+ ", 1]}".

Definition parseRc : string → option json :=
  fun content =>
    if String.eqb content rcContent
    then Some (JObject [("ignore", JArray [JString "chalk"; JNumber "1"])])
    else None.

(** The project has this text in [.unusedrc.json] and no [.unusedignore]. *)
Definition rcFileProject : World :=
  mkWorld Path.Posix "/proj"
    (Manifest [("dependencies", [("lodash", "*"); ("leftpad", "*"); ("chalk", "*")])])
    None
    [mkSourceFile "/proj/index.js" (Ast [ImportDeclaration "lodash"])]
    (fun file =>
       if String.eqb file ".unusedrc.json" then ConfigContent rcContent
       else ConfigAbsent).
(** ** Strings *)

Lemma startsWith_char (s : string) (c : ascii) :
  JsString.startsWith s (String c EmptyString) = true ↔ ∃ r, s = String c r.
Proof.
  destruct s as [|a r]; simpl.
  - split; [discriminate | intros [? ?]; discriminate].
  - destruct (Ascii.eqb_spec a c) as [->|Hne].
    + split; eauto.
    + split; [discriminate | intros [? [= ? ?]]; contradiction].
Qed.

Lemma split_nonempty (sep : ascii) (s : string) : JsString.split sep s ≠ [].
Proof.
  induction s as [|c s IH]; simpl; [discriminate|].
  destruct (Ascii.eqb c sep); [discriminate|].
  destruct (JsString.split sep s); [contradiction | discriminate].
Qed.

(** The first part of a split is a prefix of the string. *)
Lemma split_head_prefix (sep : ascii) (s p0 : string) (ps : list string) :
  JsString.split sep s = p0 :: ps → ∃ r, s = p0 +:+ r.
Proof.
  revert p0 ps. induction s as [|c s IH]; simpl; intros p0 ps.
  - intros [= <- <-]. by exists EmptyString.
  - destruct (Ascii.eqb c sep).
    + intros [= <- <-]. by exists (String c s).
    + destruct (JsString.split sep s) as [|part parts] eqn:Hs.
      * by destruct (split_nonempty sep s).
      * intros [= <- <-]. destruct (IH part parts eq_refl) as [r ->].
        by exists r.
Qed.

(** A first character that is not the separator stays in the first part. *)
Lemma split_head_cons (sep c : ascii) (s : string) :
  c ≠ sep → ∃ p ps, JsString.split sep (String c s) = String c p :: ps.
Proof.
  intros Hne. simpl. destruct (Ascii.eqb_spec c sep) as [|_]; [contradiction|].
  destruct (JsString.split sep s) as [|part parts] eqn:Hs.
  - by destruct (split_nonempty sep s).
  - eauto.
Qed.

(** Without a second part there is no separator to replace. *)
Lemma replace_no_separator (sep : ascii) (r s : string) :
  (length (JsString.split sep s) < 2)%nat → JsString.replace sep r s = s.
Proof.
  induction s as [|c s IH]; simpl; [done|].
  destruct (Ascii.eqb c sep).
  - simpl. pose proof (split_nonempty sep s).
    destruct (JsString.split sep s); [done | simpl; lia].
  - intros Hlen. f_equal. apply IH.
    destruct (JsString.split sep s); simpl in *; lia.
Qed.

Lemma replace_absent (c : ascii) (r s : string) :
  contains c s = false → JsString.replace c r s = s.
Proof.
  induction s as [|a s IH]; simpl; [done|].
  destruct (Ascii.eqb a c); simpl; [discriminate|].
  intros H. by rewrite IH.
Qed.

(** ** Relative and absolute paths *)

Lemma isPathLike_app (p : Path.platform) (a b : string) :
  isPathLike p a = true → isPathLike p (a +:+ b) = true.
Proof.
  unfold isPathLike. intros [H|H]%orb_true_iff.
  - by apply startsWith_char in H as [r ->].
  - apply orb_true_iff. right. destruct p.
    + destruct a as [|c a]; [discriminate | done].
    + destruct a as [|c [|c1 [|c2 a]]]; simpl in *; try done.
      * rewrite orb_false_r in H. by rewrite H.
      * rewrite orb_false_r in H. by rewrite H.
Qed.

Lemma isPathLike_scoped (p : Path.platform) (x : string) :
  JsString.startsWith x "@" = true → isPathLike p x = false.
Proof.
  intros [r ->]%startsWith_char. unfold isPathLike.
  destruct p; [done|]. simpl. by destruct r as [|c1 [|c2 r]].
Qed.

(** The package name of a scoped specifier is scoped. *)
Lemma pkgNameOf_scoped (s : string) :
  JsString.startsWith s "@" = true →
  JsString.startsWith (Analyzer.pkgNameOf s) "@" = true.
Proof.
  intros Hs. unfold Analyzer.pkgNameOf. rewrite Hs.
  pose proof Hs as [r ->]%startsWith_char.
  destruct (split_head_cons "/" "@" r) as (p & ps & ->); [done|].
  by destruct ps.
Qed.

Lemma pkgNameOf_not_pathLike (p : Path.platform) (s : string) :
  isPathLike p s = false → isPathLike p (Analyzer.pkgNameOf s) = false.
Proof.
  intros Hs. destruct (JsString.startsWith s "@") eqn:Hat.
  - by apply isPathLike_scoped, pkgNameOf_scoped.
  - unfold Analyzer.pkgNameOf. rewrite Hat.
    destruct (JsString.split "/" s) as [|p0 ps] eqn:Hsplit; [done|].
    destruct (split_head_prefix _ _ _ _ Hsplit) as [r ->].
    destruct (isPathLike p p0) eqn:Hp0; [|done].
    by rewrite (isPathLike_app _ _ r Hp0) in Hs.
Qed.

Lemma typesOf_scoped (c : string) :
  JsString.startsWith (Analyzer.typesOf c) "@" = true.
Proof. done. Qed.

(** ** [addDependency] *)

(** What [addDependency] does to the usage set. *)
Lemma addDependency_used (this : Analyzer.t) (w : World) (set : Analyzer.Scan)
    (importPath : string) :
  Analyzer.used (Analyzer.addDependency this w set importPath) =
    if isPathLike (platform w) importPath then Analyzer.used set
    else Analyzer.used set ∪ {[Analyzer.pkgNameOf importPath]}
           ∪ {[Analyzer.typesOf (Analyzer.pkgNameOf importPath)]}.
Proof.
  unfold Analyzer.addDependency, isPathLike.
  destruct (JsString.startsWith importPath "."); [done|].
  destruct (Path.isAbsolute (platform w) importPath); [done|].
  simpl. by destruct (Analyzer.verbose this).
Qed.

Lemma addDependency_pathFree (this : Analyzer.t) (w : World) (set : Analyzer.Scan)
    (importPath : string) :
  pathFree (platform w) (Analyzer.used set) →
  pathFree (platform w) (Analyzer.used (Analyzer.addDependency this w set importPath)).
Proof.
  intros Hfree x. rewrite addDependency_used.
  destruct (isPathLike (platform w) importPath) eqn:Hp; [apply Hfree|].
  rewrite !elem_of_union, !elem_of_singleton. intros [[Hx | ->] | ->].
  - by apply Hfree.
  - by apply pkgNameOf_not_pathLike.
  - by apply isPathLike_scoped, typesOf_scoped.
Qed.

(** ** The loop over the files *)

Lemma pathFree_empty (p : Path.platform) : pathFree p ∅.
Proof. intros x Hx. set_solver. Qed.

Lemma pathFree_union (p : Path.platform) (X Y : gset string) :
  pathFree p X → pathFree p Y → pathFree p (X ∪ Y).
Proof. intros HX HY x [?|?]%elem_of_union; auto. Qed.

Lemma contributes_id (p : Path.platform) : contributes p (fun set => set).
Proof. exists ∅. split; [apply pathFree_empty | intros; set_solver]. Qed.

Lemma contributes_fold {A : Type} (p : Path.platform)
    (f : Analyzer.Scan → A → Analyzer.Scan) (l : list A) :
  (∀ a, contributes p (fun set => f set a)) →
  contributes p (fun set => fold_left f l set).
Proof.
  intros Hf. induction l as [|a l IH]; simpl; [apply contributes_id|].
  destruct (Hf a) as (X & HX & Ha), IH as (Y & HY & Hl).
  exists (X ∪ Y). split; [by apply pathFree_union|].
  intros set. rewrite Hl, Ha. set_solver.
Qed.

Lemma keepsLog_fold {A : Type} (f : Analyzer.Scan → A → Analyzer.Scan) (l : list A) :
  (∀ a, keepsLog (fun set => f set a)) → keepsLog (fun set => fold_left f l set).
Proof.
  intros Hf. induction l as [|a l IH]; simpl; [by intros set e|].
  intros set e He. by apply IH, Hf.
Qed.

Lemma contributes_addDependency (this : Analyzer.t) (w : World) (importPath : string) :
  contributes (platform w) (fun set => Analyzer.addDependency this w set importPath).
Proof.
  destruct (isPathLike (platform w) importPath) eqn:Hp.
  - exists ∅. split; [apply pathFree_empty|].
    intros set. rewrite addDependency_used, Hp. set_solver.
  - exists ({[Analyzer.pkgNameOf importPath]}
             ∪ {[Analyzer.typesOf (Analyzer.pkgNameOf importPath)]}). split.
    + intros x. rewrite elem_of_union, !elem_of_singleton. intros [-> | ->].
      * by apply pkgNameOf_not_pathLike.
      * by apply isPathLike_scoped, typesOf_scoped.
    + intros set. rewrite addDependency_used, Hp. set_solver.
Qed.

Lemma keepsLog_addDependency (this : Analyzer.t) (w : World) (importPath : string) :
  keepsLog (fun set => Analyzer.addDependency this w set importPath).
Proof.
  intros set e He. unfold Analyzer.addDependency.
  destruct (JsString.startsWith importPath "."); [done|].
  destruct (Path.isAbsolute (platform w) importPath); [done|].
  destruct (Analyzer.verbose this); simpl; [|done].
  apply elem_of_app. by left.
Qed.

Lemma contributes_visit (this : Analyzer.t) (w : World) (node : Node) :
  contributes (platform w) (fun set => Analyzer.visit this w set node).
Proof.
  destruct node as [source | callee args | [source|] | [source|] | ]; simpl;
    try apply contributes_addDependency; try apply contributes_id.
  destruct (match callee with
            | Identifier name => String.eqb name "require"
            | Import => true
            | OtherCallee => false
            end); [|apply contributes_id].
  destruct args as [|[value|] args];
    try apply contributes_addDependency; apply contributes_id.
Qed.

Lemma keepsLog_visit (this : Analyzer.t) (w : World) (node : Node) :
  keepsLog (fun set => Analyzer.visit this w set node).
Proof.
  destruct node as [source | callee args | [source|] | [source|] | ]; simpl;
    try apply keepsLog_addDependency; try (by intros set e).
  destruct (match callee with
            | Identifier name => String.eqb name "require"
            | Import => true
            | OtherCallee => false
            end); [|by intros set e].
  destruct args as [|[value|] args];
    try apply keepsLog_addDependency; by intros set e.
Qed.

Section Scanning.

Variable path_relative : string → string → string.

Lemma contributes_scanFile (this : Analyzer.t) (w : World) (file : SourceFile) :
  contributes (platform w) (fun set => Analyzer.scanFile path_relative this w set file).
Proof.
  unfold Analyzer.scanFile. destruct (parsed file) as [why | nodes].
  - exists ∅. split; [apply pathFree_empty|].
    intros set. destruct (Analyzer.verbose this); simpl; set_solver.
  - destruct (contributes_fold (platform w) (Analyzer.visit this w) nodes
                (contributes_visit this w)) as (X & HX & Hfold).
    exists X. split; [done|]. intros set. rewrite Hfold.
    by destruct (Analyzer.verbose this).
Qed.

Lemma keepsLog_scanFile (this : Analyzer.t) (w : World) (file : SourceFile) :
  keepsLog (fun set => Analyzer.scanFile path_relative this w set file).
Proof.
  intros set e He. unfold Analyzer.scanFile.
  assert (e ∈ Analyzer.log
            (if Analyzer.verbose this
             then Analyzer.logTo LevelDebug
                    ("Scanning file: "
                       +:+ path_relative (Analyzer.rootDir this) (path file)) set
             else set)) as He'.
  { destruct (Analyzer.verbose this); simpl; [|done]. apply elem_of_app. by left. }
  destruct (parsed file) as [why | nodes].
  - simpl. apply elem_of_app. by left.
  - by apply (keepsLog_fold (Analyzer.visit this w) nodes (keepsLog_visit this w)).
Qed.

(** A file that cannot be parsed leaves the usage set as it was and logs a
    warning that names the file. *)
Lemma scanFile_failure (this : Analyzer.t) (w : World) (set : Analyzer.Scan)
    (file : SourceFile) (why : Error) :
  parsed file = ParseFailure why →
  Analyzer.used (Analyzer.scanFile path_relative this w set file) = Analyzer.used set ∧
  mkLog LevelWarn
    ("Failed to parse " +:+ path file +:+ ": " +:+ message why
       +:+ ". Usage in this file may be missed.")
    ∈ Analyzer.log (Analyzer.scanFile path_relative this w set file).
Proof.
  intros Hfile. unfold Analyzer.scanFile. rewrite Hfile. split.
  - by destruct (Analyzer.verbose this).
  - simpl. apply elem_of_app. right. apply list_elem_of_singleton. done.
Qed.

(** The usage set after the files does not depend on the console output. *)
Lemma scan_used_ext (this : Analyzer.t) (w : World) (files : list SourceFile)
    (s1 s2 : Analyzer.Scan) :
  Analyzer.used s1 = Analyzer.used s2 →
  Analyzer.used (fold_left (Analyzer.scanFile path_relative this w) files s1) =
  Analyzer.used (fold_left (Analyzer.scanFile path_relative this w) files s2).
Proof.
  intros Heq.
  destruct (contributes_fold (platform w) (Analyzer.scanFile path_relative this w) files
              (contributes_scanFile this w)) as (X & _ & Hfold).
  by rewrite !Hfold, Heq.
Qed.

Lemma scanFiles_pathFree (this : Analyzer.t) (w : World) (files : list SourceFile) :
  pathFree (platform w) (Analyzer.used (Analyzer.scanFiles path_relative this w files)).
Proof.
  unfold Analyzer.scanFiles.
  destruct (contributes_fold (platform w) (Analyzer.scanFile path_relative this w) files
              (contributes_scanFile this w)) as (X & HX & Hfold).
  rewrite Hfold. simpl. apply pathFree_union; [apply pathFree_empty | done].
Qed.

End Scanning.

(** ** The two heuristics *)

Lemma reactDom_subseteq (used : gset string) : used ⊆ Analyzer.reactDom used.
Proof. unfold Analyzer.reactDom. case_bool_decide; set_solver. Qed.

Lemma reactDom_pathFree (p : Path.platform) (used : gset string) :
  pathFree p used → pathFree p (Analyzer.reactDom used).
Proof.
  intros Hfree. unfold Analyzer.reactDom. case_bool_decide; [|done].
  apply pathFree_union; [done|].
  intros x ->%elem_of_singleton. by destruct p.
Qed.

(** Every used name that starts with [@] puts its scope among the used
    scopes, which are then not empty. *)
Lemma elem_of_usedScopesOf (used : gset string) (x : string) :
  x ∈ used → JsString.startsWith x "@" = true →
  Analyzer.scopeOf x ∈ Analyzer.usedScopesOf used.
Proof.
  intros Hx Hat. unfold Analyzer.usedScopesOf.
  apply elem_of_map. exists x. split; [done|]. by apply elem_of_filter.
Qed.

Lemma usedScopesOf_size (used : gset string) (scope : string) :
  scope ∈ Analyzer.usedScopesOf used → (0 <? size (Analyzer.usedScopesOf used))%nat = true.
Proof.
  intros Hin. apply Nat.ltb_lt.
  destruct (decide (size (Analyzer.usedScopesOf used) = 0)) as [Hz|]; [|lia].
  apply size_empty_iff in Hz. set_solver.
Qed.

Lemma shareScope_subseteq (usedScopes used : gset string) (keys : list string) :
  used ⊆ fold_left (Analyzer.shareScope usedScopes) keys used.
Proof.
  revert used. induction keys as [|k keys IH]; intros used; simpl; [done|].
  etrans; [|apply IH]. unfold Analyzer.shareScope.
  destruct (JsString.startsWith k "@"); [|done]. case_bool_decide; set_solver.
Qed.

(** A declared name whose scope is used is marked used. *)
Lemma shareScope_marks (usedScopes used : gset string) (keys : list string) (dep : string) :
  dep ∈ keys → JsString.startsWith dep "@" = true →
  Analyzer.scopeOf dep ∈ usedScopes →
  dep ∈ fold_left (Analyzer.shareScope usedScopes) keys used.
Proof.
  intros Hdep Hat Hscope. revert used.
  induction keys as [|k keys IH]; intros used; [by apply elem_of_nil in Hdep|].
  apply elem_of_cons in Hdep as [<- | Hdep]; simpl; [|by apply IH].
  apply shareScope_subseteq. unfold Analyzer.shareScope. rewrite Hat.
  rewrite bool_decide_eq_true_2 by done. set_solver.
Qed.

Lemma shareScope_pathFree (p : Path.platform) (usedScopes used : gset string)
    (keys : list string) :
  pathFree p used → pathFree p (fold_left (Analyzer.shareScope usedScopes) keys used).
Proof.
  revert used. induction keys as [|k keys IH]; intros used Hfree; simpl; [done|].
  apply IH. unfold Analyzer.shareScope.
  destruct (JsString.startsWith k "@") eqn:Hat; [|done].
  case_bool_decide; [|done]. apply pathFree_union; [done|].
  intros x ->%elem_of_singleton. by apply isPathLike_scoped.
Qed.


Section Results.

Variable path_relative : string → string → string.

(** The console output of [findUsedDependencies] is that of the loop. *)
Lemma findUsedDependencies_log (this : Analyzer.t) (w : World) (files : list SourceFile) :
  snd (Analyzer.findUsedDependencies path_relative this w files) =
  Analyzer.log (Analyzer.scanFiles path_relative this w files).
Proof.
  unfold Analyzer.findUsedDependencies.
  destruct (0 <? size _)%nat; [|done].
  by destruct (Analyzer.getDependencies this w).
Qed.

(** Its result is determined by the usage set that the loop leaves. *)
Lemma findUsedDependencies_ext (this : Analyzer.t) (w : World) (files1 files2 : list SourceFile) :
  Analyzer.used (Analyzer.scanFiles path_relative this w files1) =
  Analyzer.used (Analyzer.scanFiles path_relative this w files2) →
  fst (Analyzer.findUsedDependencies path_relative this w files1) =
  fst (Analyzer.findUsedDependencies path_relative this w files2).
Proof.
  intros Heq. unfold Analyzer.findUsedDependencies. rewrite Heq.
  destruct (0 <? size _)%nat; [|done].
  by destruct (Analyzer.getDependencies this w).
Qed.

(** With a readable manifest it returns a usage set. *)
Lemma findUsedDependencies_total (this : Analyzer.t) (w : World) (files : list SourceFile)
    (members : PackageJson) :
  manifest w = Manifest members →
  ∃ usedDeps, fst (Analyzer.findUsedDependencies path_relative this w files) = Ok usedDeps.
Proof.
  intros Hm. unfold Analyzer.findUsedDependencies, Analyzer.getDependencies.
  rewrite Hm. destruct (0 <? size _)%nat; simpl; eauto.
Qed.

Lemma findUsedDependencies_pathFree (this : Analyzer.t) (w : World)
    (files : list SourceFile) (usedDeps : gset string) (out : list LogEntry) :
  Analyzer.findUsedDependencies path_relative this w files = (Ok usedDeps, out) →
  pathFree (platform w) usedDeps.
Proof.
  unfold Analyzer.findUsedDependencies.
  pose proof (reactDom_pathFree _ _ (scanFiles_pathFree path_relative this w files)) as Hfree.
  destruct (0 <? size _)%nat.
  - destruct (Analyzer.getDependencies this w) as [deps | err]; [|discriminate].
    intros [= <- <-]. by apply shareScope_pathFree.
  - by intros [= <- <-].
Qed.

End Results.

(** ** Objects: keys and their order *)

Section Objects.

Context {V : Type}.

Implicit Types (o target source : JsObject.t V) (k : string) (v : V).

Lemma get_is_Some o k : is_Some (JsObject.get k o) ↔ k ∈ map fst o.
Proof.
  induction o as [|[k' v'] o IH]; simpl.
  - split; [by intros [? ?] | by intros ?%elem_of_nil].
  - rewrite elem_of_cons. destruct (String.eqb_spec k' k) as [->|Hne].
    + split; eauto.
    + rewrite IH. naive_solver.
Qed.

Lemma get_None o k : JsObject.get k o = None ↔ k ∉ map fst o.
Proof. rewrite <- get_is_Some, eq_None_not_Some. done. Qed.

Lemma get_set o k k' v :
  JsObject.get k (JsObject.set k' v o) = if decide (k' = k) then Some v else JsObject.get k o.
Proof.
  induction o as [|[k0 v0] o IH]; simpl.
  - destruct (String.eqb_spec k' k); by case_decide.
  - destruct (String.eqb_spec k0 k') as [->|Hne]; simpl.
    + destruct (String.eqb_spec k' k); by case_decide.
    + destruct (String.eqb_spec k0 k) as [->|Hne']; [|done].
      by rewrite decide_False by done.
Qed.

Lemma get_delete o k k' :
  JsObject.get k (JsObject.delete k' o) = if decide (k' = k) then None else JsObject.get k o.
Proof.
  induction o as [|[k0 v0] o IH]; simpl.
  - by case_decide.
  - destruct (String.eqb_spec k0 k') as [->|Hne]; simpl.
    + rewrite IH. case_decide; [done|].
      by destruct (String.eqb_spec k' k).
    + rewrite IH. destruct (String.eqb_spec k0 k) as [->|Hne']; [|done].
      by rewrite decide_False by done.
Qed.

(** [set] keeps the place of a key that is present and puts a new key last. *)
Lemma keys_set o k v :
  map fst (JsObject.set k v o)
  = if decide (k ∈ map fst o) then map fst o else map fst o ++ [k].
Proof.
  induction o as [|[k0 v0] o IH]; simpl.
  - done.
  - destruct (String.eqb_spec k0 k) as [->|Hne]; simpl.
    + rewrite decide_True; [done | by left].
    + rewrite IH. destruct (decide (k ∈ map fst o)) as [Hin|Hout].
      * rewrite decide_True; [done | by right].
      * rewrite decide_False; [done|]. rewrite elem_of_cons. naive_solver.
Qed.

Lemma keys_delete o k : map fst (JsObject.delete k o) = filter (fun k' => k' ≠ k) (map fst o).
Proof.
  induction o as [|[k0 v0] o IH]; simpl; [done|].
  destruct (String.eqb_spec k0 k) as [->|Hne].
  - rewrite filter_cons_False by naive_solver. done.
  - rewrite filter_cons_True by done. simpl. by rewrite IH.
Qed.

Lemma NoDup_keys_set o k v : NoDup (map fst o) → NoDup (map fst (JsObject.set k v o)).
Proof.
  intros Hnd. rewrite keys_set. case_decide; [done|].
  apply NoDup_app. split_and!; [done | | apply NoDup_singleton].
  intros x Hx ->%list_elem_of_singleton. done.
Qed.

Lemma NoDup_keys_delete o k : NoDup (map fst o) → NoDup (map fst (JsObject.delete k o)).
Proof. intros Hnd. rewrite keys_delete. by apply NoDup_filter. Qed.

(** Objects built by [JSON.parse] have no repeated key, and the value of a
    key is one of the values written for it. *)
Lemma fold_set_NoDup (members : list (string * V)) o :
  NoDup (map fst o) →
  NoDup (map fst (fold_left (fun o kv => JsObject.set (fst kv) (snd kv) o) members o)).
Proof.
  revert o. induction members as [|[k v] members IH]; intros o Hnd; simpl; [done|].
  by apply IH, NoDup_keys_set.
Qed.

Lemma NoDup_keys_fromEntries (members : list (string * V)) :
  NoDup (map fst (JsObject.fromEntries members)).
Proof. apply fold_set_NoDup. constructor. Qed.

Lemma fold_set_get (members : list (string * V)) o k v :
  JsObject.get k (fold_left (fun o kv => JsObject.set (fst kv) (snd kv) o) members o) = Some v →
  (k, v) ∈ members ∨ JsObject.get k o = Some v.
Proof.
  revert o. induction members as [|[k' v'] members IH]; intros o; simpl; [by right|].
  intros [Hin | Hget]%IH; [left; by right|].
  rewrite get_set in Hget. case_decide as Hk; [|by right].
  injection Hget as ->. subst. left. by left.
Qed.

Lemma get_fromEntries (members : list (string * V)) k v :
  JsObject.get k (JsObject.fromEntries members) = Some v → (k, v) ∈ members.
Proof. intros [?|?]%fold_set_get; done. Qed.

(** The keys that are array indices and those that are not make up the keys. *)
Lemma filter_partition (f : string → bool) (l : list string) :
  List.filter f l ++ List.filter (fun k => negb (f k)) l ≡ₚ l.
Proof.
  induction l as [|k l IH]; simpl; [done|].
  destruct (f k); simpl.
  - by constructor.
  - rewrite <- Permutation_middle. by constructor.
Qed.

Lemma ownKeys_Permutation o : JsObject.ownKeys o ≡ₚ map fst o.
Proof.
  unfold JsObject.ownKeys. rewrite merge_sort_Permutation. apply filter_partition.
Qed.

Lemma elem_of_ownKeys o k : k ∈ JsObject.ownKeys o ↔ k ∈ map fst o.
Proof. by rewrite ownKeys_Permutation. Qed.

Lemma NoDup_ownKeys o : NoDup (map fst o) → NoDup (JsObject.ownKeys o).
Proof. by rewrite ownKeys_Permutation. Qed.

(** Without array indices among the keys, [Object.keys] is creation order. *)
Lemma ownKeys_creation_order o :
  (∀ k, k ∈ map fst o → JsObject.isArrayIndex k = false) →
  JsObject.ownKeys o = map fst o.
Proof.
  intros Hno. unfold JsObject.ownKeys.
  assert (List.filter JsObject.isArrayIndex (map fst o) = []
          ∧ List.filter (fun k => negb (JsObject.isArrayIndex k)) (map fst o) = map fst o)
    as [-> ->]; [|done].
  induction (map fst o) as [|k l IH]; simpl; [done|].
  rewrite (Hno k) by by left. simpl.
  destruct IH as [-> ->]; [|done]. intros k' Hk'. apply Hno. by right.
Qed.

(** Copying a key of [source] onto [target] sets it. *)
Lemma copyKey_present source target k :
  k ∈ map fst source → ∃ v, JsObject.copyKey source target k = JsObject.set k v target.
Proof.
  intros [v Hv]%get_is_Some. exists v. unfold JsObject.copyKey. by rewrite Hv.
Qed.

Lemma elem_of_keys_copy source target (ks : list string) x :
  (∀ k, k ∈ ks → k ∈ map fst source) →
  x ∈ map fst (fold_left (JsObject.copyKey source) ks target) ↔ x ∈ map fst target ∨ x ∈ ks.
Proof.
  revert target. induction ks as [|k ks IH]; intros target Hks; simpl.
  - rewrite elem_of_nil. naive_solver.
  - rewrite IH by (intros; apply Hks; by right).
    destruct (copyKey_present source target k) as [v ->]; [apply Hks; by left|].
    rewrite keys_set, elem_of_cons. case_decide.
    + naive_solver.
    + rewrite elem_of_app, list_elem_of_singleton. naive_solver.
Qed.

Lemma NoDup_keys_copy source target (ks : list string) :
  NoDup (map fst target) → NoDup (map fst (fold_left (JsObject.copyKey source) ks target)).
Proof.
  revert target. induction ks as [|k ks IH]; intros target Hnd; simpl; [done|].
  apply IH. unfold JsObject.copyKey.
  destruct (JsObject.get k source); [by apply NoDup_keys_set | done].
Qed.

Lemma filter_ext_elem_of (P Q : string → Prop)
    `{!∀ x, Decision (P x), !∀ x, Decision (Q x)} (l : list string) :
  (∀ x, x ∈ l → P x ↔ Q x) → filter P l = filter Q l.
Proof.
  induction l as [|a l IH]; intros Hext; [done|].
  assert (filter P l = filter Q l) as Hl.
  { apply IH. intros x Hx. apply Hext. by right. }
  destruct (decide (P a)) as [Ha|Ha].
  - rewrite !filter_cons_True; [by rewrite Hl | | done]. apply Hext; [by left | done].
  - rewrite !filter_cons_False; [done | | done]. intros HQ. apply Ha, Hext; [by left | done].
Qed.

(** New keys are created in the order in which they are copied. *)
Lemma keys_copy source target (ks : list string) :
  (∀ k, k ∈ ks → k ∈ map fst source) → NoDup ks →
  map fst (fold_left (JsObject.copyKey source) ks target)
  = map fst target ++ filter (fun k => k ∉ map fst target) ks.
Proof.
  revert target. induction ks as [|k ks IH]; intros target Hks Hnd; simpl.
  - by rewrite app_nil_r.
  - apply NoDup_cons in Hnd as [Hk Hnd].
    rewrite IH; [|intros; apply Hks; by right | done].
    destruct (copyKey_present source target k) as [v ->]; [apply Hks; by left|].
    rewrite keys_set. destruct (decide (k ∈ map fst target)) as [Hin|Hout].
    + by rewrite filter_cons_False by naive_solver.
    + rewrite filter_cons_True by done. rewrite <- app_assoc. simpl. do 2 f_equal.
      apply filter_ext_elem_of. intros x Hx.
      rewrite elem_of_app, list_elem_of_singleton. naive_solver.
Qed.

Lemma elem_of_keys_spread target source x :
  x ∈ map fst (JsObject.spread target source) ↔ x ∈ map fst target ∨ x ∈ map fst source.
Proof.
  unfold JsObject.spread. rewrite elem_of_keys_copy.
  - by rewrite elem_of_ownKeys.
  - intros k. by rewrite elem_of_ownKeys.
Qed.

Lemma NoDup_keys_spread target source :
  NoDup (map fst target) → NoDup (map fst (JsObject.spread target source)).
Proof. apply NoDup_keys_copy. Qed.

(** Without array indices in [source], the spread keeps the keys of
    [target] and appends the new keys of [source] in creation order. *)
Lemma keys_spread target source :
  NoDup (map fst source) →
  (∀ k, k ∈ map fst source → JsObject.isArrayIndex k = false) →
  map fst (JsObject.spread target source)
  = map fst target ++ filter (fun k => k ∉ map fst target) (map fst source).
Proof.
  intros Hnd Hno. unfold JsObject.spread.
  rewrite ownKeys_creation_order by done. by apply keys_copy.
Qed.

End Objects.

Lemma filter_not_elem_of_nil (l : list string) :
  filter (fun k => k ∉ @nil string) l = l.
Proof.
  induction l as [|k l IH]; [done|].
  rewrite filter_cons_True by apply not_elem_of_nil. by rewrite IH.
Qed.

Lemma keys_spread_empty {V : Type} (source : JsObject.t V) :
  NoDup (map fst source) →
  (∀ k, k ∈ map fst source → JsObject.isArrayIndex k = false) →
  map fst (JsObject.spread JsObject.empty source) = map fst source.
Proof.
  intros Hnd Hno. rewrite keys_spread by done. simpl. apply filter_not_elem_of_nil.
Qed.

(** ** The declared dependencies *)

(** A section read from the manifest has no repeated name. *)
Lemma NoDup_section (members : PackageJson) (section : string) (s : JsObject.t string) :
  JsObject.get section (readJSON members) = Some s → NoDup (map fst s).
Proof.
  intros Hget%get_fromEntries.
  apply list_elem_of_fmap in Hget as ([k xs] & [= -> ->] & _).
  apply NoDup_keys_fromEntries.
Qed.

Lemma NoDup_declaredIn (section : string) (members : PackageJson) :
  NoDup (declaredIn section members).
Proof.
  unfold declaredIn.
  destruct (JsObject.get section (readJSON members)) as [s|] eqn:Hs.
  - by eapply NoDup_section.
  - constructor.
Qed.

(** The map that [getDependencies] returns for a readable manifest: its
    keys are the names of the runtime section and, when [checkDevDeps] is
    set, those of the dev section; peer and optional sections are not read. *)
Lemma getDependencies_keys (this : Analyzer.t) (w : World) (members : PackageJson) :
  manifest w = Manifest members →
  ∃ deps,
    Analyzer.getDependencies this w = Ok deps ∧
    NoDup (map fst deps) ∧
    (∀ name, name ∈ map fst deps ↔
       name ∈ declaredIn "dependencies" members ∨
       (Analyzer.checkDevDeps this = true ∧ name ∈ declaredIn "devDependencies" members)) ∧
    ((∀ name, name ∈ map fst deps → JsObject.isArrayIndex name = false) →
     map fst deps
     = declaredIn "dependencies" members
         ++ (if Analyzer.checkDevDeps this
             then filter (fun name => name ∉ declaredIn "dependencies" members)
                    (declaredIn "devDependencies" members)
             else [])).
Proof.
  intros Hm. unfold Analyzer.getDependencies. rewrite Hm.
  set (pkg := readJSON members).
  set (deps0 := Analyzer.spreadSection JsObject.empty (JsObject.get "dependencies" pkg)).
  assert (NoDup (map fst deps0)) as Hnd0.
  { unfold deps0. destruct (JsObject.get "dependencies" pkg); simpl; [|constructor].
    apply NoDup_keys_spread. constructor. }
  assert (∀ name, name ∈ map fst deps0 ↔ name ∈ declaredIn "dependencies" members) as Hin0.
  { intros name. unfold deps0, declaredIn. fold pkg.
    destruct (JsObject.get "dependencies" pkg); simpl; [|done].
    rewrite elem_of_keys_spread. simpl. rewrite elem_of_nil. naive_solver. }
  assert ((∀ name, name ∈ map fst deps0 → JsObject.isArrayIndex name = false) →
          map fst deps0 = declaredIn "dependencies" members) as Hord0.
  { unfold deps0, declaredIn. fold pkg.
    destruct (JsObject.get "dependencies" pkg) as [s|] eqn:Hs; simpl; [|done].
    intros Hno. apply keys_spread_empty; [by eapply NoDup_section|].
    intros k Hk. apply Hno, elem_of_keys_spread. by right. }
  remember (declaredIn "devDependencies" members) as dev eqn:Hdev.
  unfold declaredIn in Hdev. fold pkg in Hdev.
  destruct (Analyzer.checkDevDeps this).
  - set (copy := JsObject.spread JsObject.empty deps0).
    assert (NoDup (map fst copy)) as Hndc by (apply NoDup_keys_spread; constructor).
    assert (∀ name, name ∈ map fst copy ↔ name ∈ map fst deps0) as Hinc.
    { intros name. unfold copy. rewrite elem_of_keys_spread. simpl.
      rewrite elem_of_nil. naive_solver. }
    eexists. split; [done|].
    destruct (JsObject.get "devDependencies" pkg) as [d|] eqn:Hd; subst dev; simpl.
    + split_and!.
      * by apply NoDup_keys_spread.
      * intros name. rewrite elem_of_keys_spread, Hinc, Hin0. naive_solver.
      * intros Hno.
        assert (map fst copy = declaredIn "dependencies" members) as Hcopy.
        { unfold copy. rewrite keys_spread_empty; [apply Hord0 | done |].
          - intros k Hk. apply Hno, elem_of_keys_spread. left. by apply Hinc.
          - intros k Hk. apply Hno, elem_of_keys_spread. left. by apply Hinc. }
        rewrite keys_spread; [by rewrite Hcopy | by eapply NoDup_section |].
        intros k Hk. apply Hno, elem_of_keys_spread. by right.
    + split_and!.
      * done.
      * intros name. rewrite Hinc, Hin0, elem_of_nil. naive_solver.
      * intros Hno. rewrite app_nil_r.
        unfold copy. rewrite keys_spread_empty; [apply Hord0 | done |].
        -- intros k Hk. apply Hno. by apply Hinc.
        -- intros k Hk. apply Hno. by apply Hinc.
  - eexists. split; [done|]. split_and!.
    + done.
    + intros name. rewrite Hin0. naive_solver.
    + intros Hno. rewrite app_nil_r. by apply Hord0.
Qed.

(** ** Writing an object and reading it back *)

Section RoundTrip.

Context {V : Type}.

Implicit Types (o : JsObject.t V) (k : string) (v : V).

Lemma fold_set_get_other (members : list (string * V)) o k :
  k ∉ map fst members →
  JsObject.get k (fold_left (fun o kv => JsObject.set (fst kv) (snd kv) o) members o)
  = JsObject.get k o.
Proof.
  revert o. induction members as [|[k' v'] members IH]; intros o Hk; simpl; [done|].
  simpl in Hk. apply not_elem_of_cons in Hk as [Hne Hk].
  rewrite IH by done. rewrite get_set. by rewrite decide_False.
Qed.

Lemma fold_set_get_elem (members : list (string * V)) o k v :
  NoDup (map fst members) → (k, v) ∈ members →
  JsObject.get k (fold_left (fun o kv => JsObject.set (fst kv) (snd kv) o) members o)
  = Some v.
Proof.
  revert o. induction members as [|[k' v'] members IH]; intros o Hnd Hin; simpl.
  - by apply elem_of_nil in Hin.
  - simpl in Hnd. apply NoDup_cons in Hnd as [Hk' Hnd].
    apply elem_of_cons in Hin as [[= -> ->] | Hin]; [|by apply IH].
    rewrite fold_set_get_other by done. rewrite get_set. by rewrite decide_True.
Qed.

Lemma elem_of_entries o k v : (k, v) ∈ JsObject.entries o ↔ JsObject.get k o = Some v.
Proof.
  unfold JsObject.entries. rewrite list_elem_of_omap. split.
  - intros (k' & Hk' & Hget). destruct (JsObject.get k' o) as [v'|] eqn:Hv; [|done].
    by injection Hget as -> ->.
  - intros Hget. exists k. rewrite Hget. split; [|done].
    apply elem_of_ownKeys, get_is_Some. eauto.
Qed.

Lemma keys_entries o : map fst (JsObject.entries o) = JsObject.ownKeys o.
Proof.
  unfold JsObject.entries.
  assert (∀ k, k ∈ JsObject.ownKeys o → is_Some (JsObject.get k o)) as Hall.
  { intros k Hk. by apply get_is_Some, elem_of_ownKeys. }
  induction (JsObject.ownKeys o) as [|k ks IH]; [done|].
  destruct (Hall k) as [v Hv]; [by left|]. simpl. rewrite Hv. simpl.
  f_equal. apply IH. intros k' Hk'. apply Hall. by right.
Qed.

(** Reading back what was written gives the same values. *)
Lemma get_fromEntries_entries o k :
  NoDup (map fst o) →
  JsObject.get k (JsObject.fromEntries (JsObject.entries o)) = JsObject.get k o.
Proof.
  intros Hnd. destruct (JsObject.get k o) as [v|] eqn:Hget.
  - apply fold_set_get_elem; [|by apply elem_of_entries].
    rewrite keys_entries. by apply NoDup_ownKeys.
  - destruct (JsObject.get k (JsObject.fromEntries (JsObject.entries o))) as [v|] eqn:Hv;
      [|done].
    apply get_fromEntries, elem_of_entries in Hv. congruence.
Qed.

End RoundTrip.

Lemma get_fromEntries_map {A B : Type} (f : A → B) (members : list (string * A)) (k : string) :
  JsObject.get k (JsObject.fromEntries (map (fun kv => (fst kv, f (snd kv))) members))
  = f <$> JsObject.get k (JsObject.fromEntries members).
Proof.
  unfold JsObject.fromEntries.
  assert (∀ (o : JsObject.t A) (o' : JsObject.t B),
            (∀ k, JsObject.get k o' = f <$> JsObject.get k o) →
            ∀ k, JsObject.get k
                   (fold_left (fun o kv => JsObject.set (fst kv) (snd kv) o)
                      (map (fun kv => (fst kv, f (snd kv))) members) o')
                 = f <$> JsObject.get k
                           (fold_left (fun o kv => JsObject.set (fst kv) (snd kv) o)
                              members o)) as Hgen.
  { induction members as [|[k' a] members IH]; intros o o' Hrel; simpl; [done|].
    apply IH. intros k0. rewrite !get_set. case_decide; [done | apply Hrel]. }
  by apply Hgen.
Qed.

(** The manifest that is written, read again. *)
Lemma readJSON_writeJSON (pkg : JsObject.t (JsObject.t string)) (section : string) :
  NoDup (map fst pkg) →
  JsObject.get section (readJSON (writeJSON pkg))
  = (fun s => JsObject.fromEntries (JsObject.entries s)) <$> JsObject.get section pkg.
Proof.
  intros Hnd. unfold readJSON, writeJSON. rewrite map_map. simpl.
  rewrite (get_fromEntries_map (fun s => JsObject.fromEntries (JsObject.entries s))).
  by rewrite get_fromEntries_entries.
Qed.

(** ** The cleaner *)

Lemma removeDep_get (section : JsObject.t string) (dep name : string) :
  JsObject.get name (Cleaner.removeDep section dep)
  = if decide (dep = name) then afterRemoval (JsObject.get name section)
    else JsObject.get name section.
Proof.
  unfold Cleaner.removeDep, afterRemoval. case_decide as Hdep.
  - subst. destruct (JsObject.get name section) as [v|] eqn:Hv; [|done].
    destruct (JsString.truthy v); [|done]. rewrite get_delete. by rewrite decide_True.
  - destruct (JsObject.get dep section) as [v|]; [|done].
    destruct (JsString.truthy v); [|done]. rewrite get_delete. by rewrite decide_False.
Qed.

Lemma afterRemoval_idemp (version : option string) :
  afterRemoval (afterRemoval version) = afterRemoval version.
Proof.
  destruct version as [v|]; simpl; [|done].
  destruct (JsString.truthy v) eqn:Hv; simpl; [done | by rewrite Hv].
Qed.

(** The inner loop: named entries go, the others stay. *)
Lemma removeDeps_get (dependenciesToRemove : list string) (section : JsObject.t string)
    (name : string) :
  JsObject.get name (fold_left Cleaner.removeDep dependenciesToRemove section)
  = if decide (name ∈ dependenciesToRemove) then afterRemoval (JsObject.get name section)
    else JsObject.get name section.
Proof.
  revert section. induction dependenciesToRemove as [|dep deps IH]; intros section; simpl.
  - done.
  - rewrite IH, removeDep_get.
    destruct (decide (name ∈ dep :: deps)) as [Hin|Hout].
    + destruct (decide (dep = name)) as [->|Hne];
        destruct (decide (name ∈ deps)) as [Hin'|Hout'];
        [apply afterRemoval_idemp | done | done |].
      apply elem_of_cons in Hin. naive_solver.
    + apply not_elem_of_cons in Hout as [Hne Hout].
      rewrite decide_False by done. by rewrite decide_False.
Qed.

Lemma removeDeps_NoDup (dependenciesToRemove : list string) (section : JsObject.t string) :
  NoDup (map fst section) →
  NoDup (map fst (fold_left Cleaner.removeDep dependenciesToRemove section)).
Proof.
  revert section. induction dependenciesToRemove as [|dep deps IH]; intros section Hnd;
    simpl; [done|].
  apply IH. unfold Cleaner.removeDep.
  destruct (JsObject.get dep section) as [v|]; [|done].
  destruct (JsString.truthy v); [by apply NoDup_keys_delete | done].
Qed.

Lemma cleanSection_get (dependenciesToRemove : list string)
    (pkg : JsObject.t (JsObject.t string)) (depType k : string) :
  JsObject.get k (Cleaner.cleanSection dependenciesToRemove pkg depType)
  = if decide (depType = k) then cleaned dependenciesToRemove (JsObject.get k pkg)
    else JsObject.get k pkg.
Proof.
  unfold Cleaner.cleanSection, cleaned.
  destruct (JsObject.get depType pkg) as [section|] eqn:Hsec.
  - destruct (length _ =? 0)%nat eqn:Hlen.
    + rewrite get_delete. case_decide; [subst; by rewrite Hsec, Hlen | done].
    + rewrite get_set. case_decide; [subst; by rewrite Hsec, Hlen | done].
  - case_decide; [subst; by rewrite Hsec | done].
Qed.

Lemma cleanSection_NoDup (dependenciesToRemove : list string)
    (pkg : JsObject.t (JsObject.t string)) (depType : string) :
  NoDup (map fst pkg) →
  NoDup (map fst (Cleaner.cleanSection dependenciesToRemove pkg depType)).
Proof.
  intros Hnd. unfold Cleaner.cleanSection.
  destruct (JsObject.get depType pkg) as [section|]; [|done].
  destruct (length _ =? 0)%nat; [by apply NoDup_keys_delete | by apply NoDup_keys_set].
Qed.

(** The outer loop, over distinct section names. *)
Lemma cleanSections_get (dependenciesToRemove sections : list string)
    (pkg : JsObject.t (JsObject.t string)) (k : string) :
  NoDup sections →
  JsObject.get k (fold_left (Cleaner.cleanSection dependenciesToRemove) sections pkg)
  = if decide (k ∈ sections) then cleaned dependenciesToRemove (JsObject.get k pkg)
    else JsObject.get k pkg.
Proof.
  intros Hnd. revert pkg.
  induction sections as [|s sections IH]; intros pkg; simpl; [done|].
  apply NoDup_cons in Hnd as [Hs Hnd]. rewrite IH, cleanSection_get by done.
  destruct (decide (k ∈ s :: sections)) as [Hin|Hout].
  - destruct (decide (s = k)) as [->|Hne].
    + by rewrite decide_False.
    + rewrite decide_True; [done|]. apply elem_of_cons in Hin. naive_solver.
  - apply not_elem_of_cons in Hout as [Hne Hout].
    rewrite decide_False by done. by rewrite decide_False.
Qed.

Lemma cleanSections_NoDup (dependenciesToRemove sections : list string)
    (pkg : JsObject.t (JsObject.t string)) :
  NoDup (map fst pkg) →
  NoDup (map fst (fold_left (Cleaner.cleanSection dependenciesToRemove) sections pkg)).
Proof.
  revert pkg. induction sections as [|s sections IH]; intros pkg Hnd; simpl; [done|].
  by apply IH, cleanSection_NoDup.
Qed.

Lemma depTypes_NoDup : NoDup Cleaner.depTypes.
Proof. unfold Cleaner.depTypes. repeat constructor; set_solver. Qed.

(** An object without keys has no entry. *)
Lemma get_no_keys {V : Type} (o : JsObject.t V) (k : string) :
  (length (JsObject.ownKeys o) =? 0)%nat = true → JsObject.get k o = None.
Proof.
  intros Hlen%Nat.eqb_eq. apply get_None. intros Hk%elem_of_ownKeys.
  destruct (JsObject.ownKeys o); [by apply elem_of_nil in Hk | done].
Qed.

(** What a cleaned section holds for a name. *)
Lemma cleaned_get (dependenciesToRemove : list string)
    (section : option (JsObject.t string)) (name : string) :
  (cleaned dependenciesToRemove section ≫= JsObject.get name)
  = if decide (name ∈ dependenciesToRemove)
    then afterRemoval (section ≫= JsObject.get name)
    else section ≫= JsObject.get name.
Proof.
  destruct section as [s|]; simpl; [|by case_decide].
  rewrite <- removeDeps_get.
  destruct (length _ =? 0)%nat eqn:Hlen; simpl; [|done].
  by rewrite get_no_keys.
Qed.

Lemma cleaned_NoDup (dependenciesToRemove : list string)
    (section : option (JsObject.t string)) (s : JsObject.t string) :
  (∀ s0, section = Some s0 → NoDup (map fst s0)) →
  cleaned dependenciesToRemove section = Some s →
  NoDup (map fst s) ∧ JsObject.ownKeys s ≠ [].
Proof.
  intros Hnd. destruct section as [s0|]; simpl; [|done].
  destruct (length _ =? 0)%nat eqn:Hlen; [done|]. intros [= <-]. split.
  - by apply removeDeps_NoDup, Hnd.
  - intros Hnil. by rewrite Hnil in Hlen.
Qed.

(** ** The model at work *)

Example split_scoped : JsString.split "/" "@scope/pkg/sub/path" = ["@scope"; "pkg"; "sub"; "path"].
Proof. reflexivity. Qed.

Example pkgNameOf_scoped_path : Analyzer.pkgNameOf "@scope/pkg/sub/path" = "@scope/pkg".
Proof. reflexivity. Qed.

Example pkgNameOf_unscoped_path : Analyzer.pkgNameOf "lodash/fp" = "lodash".
Proof. reflexivity. Qed.

Example typesOf_scoped_name : Analyzer.typesOf "@babel/core" = "@types/babel__core".
Proof. reflexivity. Qed.

Example isAbsolute_posix : Path.isAbsolute Path.Posix "/usr/lib/x.js" = true.
Proof. reflexivity. Qed.

Example isAbsolute_drive : Path.isAbsolute Path.Win32 "C:/proj/x.js" = true.
Proof. reflexivity. Qed.

Example isAbsolute_drive_relative : Path.isAbsolute Path.Win32 "C:x.js" = false.
Proof. reflexivity. Qed.

Example ignoreLines_skips_comments :
  Config.ignoreLines (" eslint " +:+ String "010" ("# tools" +:+ String "010" "")) = ["eslint"].
Proof. reflexivity. Qed.

(** Names that are array indices come first in the verdicts, in numeric
    order, whatever their place in the manifest. *)
Example index_names_come_first :
  fst (Analyzer.analyze relativeName defaultAnalyzer numberedProject)
  = Ok [DependencyUsage.mk "2" false []; DependencyUsage.mk "10" false [];
        DependencyUsage.mk "lodash" true []].
Proof. vm_compute. reflexivity. Qed.

(** With React imported, [react-dom] is in the usage set. *)
Example react_brings_react_dom :
  "react-dom" ∈ Analyzer.reactDom {["react"; "@types/react"]}.
Proof. apply (bool_decide_eq_true_1 _). vm_compute. reflexivity. Qed.

(** ** The lines of an ignore file *)

Lemma elem_of_list_map {A B : Type} (f : A → B) (l : list A) (y : B) :
  y ∈ map f l ↔ ∃ x, y = f x ∧ x ∈ l.
Proof. exact (list_elem_of_fmap f l y). Qed.

Lemma elem_of_ignoreLines (content entry : string) :
  entry ∈ Config.ignoreLines content
  ↔ ∃ line, line ∈ JsString.split "010" content ∧ entry = JsString.trim line
            ∧ entry ≠ EmptyString ∧ JsString.startsWith entry "#" = false.
Proof.
  unfold Config.ignoreLines. rewrite list_elem_of_In, filter_In, <- list_elem_of_In.
  rewrite elem_of_list_map, andb_true_iff, negb_true_iff. unfold JsString.truthy.
  rewrite negb_true_iff, String.eqb_neq. naive_solver.
Qed.

(** The analyzer is told to ignore the names that are in the ignore list
    as strings. *)
Lemma elem_of_ignoredNames (config : Config.t) (name : string) :
  name ∈ ignoredNames config ↔ JString name ∈ Config.ignore config.
Proof.
  unfold ignoredNames. rewrite list_elem_of_omap. split.
  - intros (entry & Hentry & Hname). destruct entry; try discriminate.
    by injection Hname as ->.
  - intros Hentry. by exists (JString name).
Qed.

(** ** The verdicts of [analyze] *)

Lemma verdict_name (this : Analyzer.t) (usedDeps : gset string) (name : string) :
  DependencyUsage.name (Analyzer.verdict this usedDeps name) = name.
Proof. unfold Analyzer.verdict. by case_bool_decide. Qed.

Lemma verdict_isUsed (this : Analyzer.t) (usedDeps : gset string) (name : string) :
  DependencyUsage.isUsed (Analyzer.verdict this usedDeps name) = true
  ↔ name ∈ Analyzer.ignore this ∨ name ∈ usedDeps.
Proof.
  unfold Analyzer.verdict. case_bool_decide as Hig; simpl.
  - naive_solver.
  - rewrite bool_decide_eq_true. naive_solver.
Qed.

Lemma verdict_ignored (this : Analyzer.t) (usedDeps : gset string) (name : string) :
  name ∈ Analyzer.ignore this →
  Analyzer.verdict this usedDeps name = DependencyUsage.mk name true ["(ignored)"].
Proof. intros Hig. unfold Analyzer.verdict. by rewrite bool_decide_eq_true_2. Qed.

Section Verdicts.

Variable path_relative : string → string → string.

(** What a successful [analyze] is made of. *)
Lemma analyze_Ok (this : Analyzer.t) (w : World)
    (results : list DependencyUsage.t) (out : list LogEntry) :
  Analyzer.analyze path_relative this w = (Ok results, out) →
  ∃ deps usedDeps,
    Analyzer.getDependencies this w = Ok deps ∧
    Analyzer.findUsedDependencies path_relative this w (Analyzer.getSourceFiles this w)
      = (Ok usedDeps, out) ∧
    results = map (Analyzer.verdict this usedDeps) (JsObject.ownKeys deps).
Proof.
  unfold Analyzer.analyze.
  destruct (Analyzer.getDependencies this w) as [deps | err]; [|discriminate].
  destruct (Analyzer.findUsedDependencies _ _ _ _) as [[usedDeps | err] out'];
    [|discriminate].
  intros [= <- <-]. eauto.
Qed.

(** C1. For every declared dependency (every key of the map that
    [getDependencies] returns), the verdict of [analyze] carries the name,
    has [isUsed = true] exactly when the name is in the ignore set or in the
    usage set that [findUsedDependencies] returns (after both heuristics),
    and, when the name is in the ignore set, is exactly
    [{ name, isUsed: true, filesUsedIn: ['(ignored)'] }], whatever the usage. *)
Theorem analyze_verdict_iff (this : Analyzer.t) (w : World)
    (results : list DependencyUsage.t) (out : list LogEntry) :
  Analyzer.analyze path_relative this w = (Ok results, out) →
  ∃ deps usedDeps,
    Analyzer.getDependencies this w = Ok deps ∧
    Analyzer.findUsedDependencies path_relative this w (Analyzer.getSourceFiles this w)
      = (Ok usedDeps, out) ∧
    Forall2
      (fun name v =>
         DependencyUsage.name v = name ∧
         (DependencyUsage.isUsed v = true
          ↔ name ∈ Analyzer.ignore this ∨ name ∈ usedDeps) ∧
         (name ∈ Analyzer.ignore this →
          DependencyUsage.isUsed v = true ∧
          DependencyUsage.filesUsedIn v = ["(ignored)"]))
      (JsObject.ownKeys deps) results.
Proof.
  intros (deps & usedDeps & Hdeps & Hused & ->)%analyze_Ok.
  exists deps, usedDeps. split_and!; [done..|].
  apply Forall2_fmap_r, Forall_Forall2_diag, Forall_forall. intros name _.
  split_and!.
  - apply verdict_name.
  - apply verdict_isUsed.
  - intros Hig. by rewrite verdict_ignored.
Qed.

End Verdicts.

(** The lodash project, analysed with [leftpad] ignored. *)
Lemma analyze_verdict_iff_witness :
  ∃ deps usedDeps,
    Analyzer.getDependencies ignoringAnalyzer lodashProject = Ok deps ∧
    Analyzer.findUsedDependencies relativeName ignoringAnalyzer lodashProject
      (Analyzer.getSourceFiles ignoringAnalyzer lodashProject) = (Ok usedDeps, []) ∧
    Forall2
      (fun name v =>
         DependencyUsage.name v = name ∧
         (DependencyUsage.isUsed v = true
          ↔ name ∈ Analyzer.ignore ignoringAnalyzer ∨ name ∈ usedDeps) ∧
         (name ∈ Analyzer.ignore ignoringAnalyzer →
          DependencyUsage.isUsed v = true ∧
          DependencyUsage.filesUsedIn v = ["(ignored)"]))
      (JsObject.ownKeys deps)
      [DependencyUsage.mk "lodash" true [];
       DependencyUsage.mk "@types/lodash" true [];
       DependencyUsage.mk "leftpad" true ["(ignored)"]].
Proof.
  apply (analyze_verdict_iff relativeName ignoringAnalyzer lodashProject).
  vm_compute. reflexivity.
Defined.

(** ** Scoped specifiers without a package part *)

(** C2, as stated, fails: the specifier [@foo] has one segment only, yet
    [addDependency] adds both [@foo] and [@types/foo] to an empty usage set. *)
Lemma scoped_one_segment_is_added :
  JsString.startsWith "@foo" "@" = true ∧
  length (JsString.split "/" "@foo") = 1 ∧
  Analyzer.used (Analyzer.addDependency defaultAnalyzer lodashProject emptyScan "@foo")
    = {["@foo"; "@types/foo"]} ∧
  Analyzer.used (Analyzer.addDependency defaultAnalyzer lodashProject emptyScan "@foo")
    ≠ Analyzer.used emptyScan.
Proof.
  split_and!; [reflexivity | reflexivity | vm_compute; reflexivity |].
  intros Heq. assert ("@foo" ∈ Analyzer.used emptyScan) as Hin.
  { rewrite <- Heq. apply (bool_decide_eq_true_1 _). vm_compute. reflexivity. }
  by apply elem_of_empty in Hin.
Qed.

(** C2, amended.  For a scoped specifier [@rest] with fewer than two
    slash-separated segments, the package name is the whole specifier:
    [addDependency] adds the specifier itself and the synthetic identifier
    [@types/rest] to the usage set. *)
Theorem addDependency_scoped_one_segment (this : Analyzer.t) (w : World)
    (set : Analyzer.Scan) (rest : string) :
  length (JsString.split "/" (String "@" rest)) < 2 →
  Analyzer.pkgNameOf (String "@" rest) = String "@" rest ∧
  Analyzer.used (Analyzer.addDependency this w set (String "@" rest))
    = Analyzer.used set ∪ {[String "@" rest]} ∪ {["@types/" +:+ rest]}.
Proof.
  intros Hlen.
  assert (Analyzer.pkgNameOf (String "@" rest) = String "@" rest) as Hname.
  { unfold Analyzer.pkgNameOf.
    change (JsString.startsWith (String "@" rest) "@") with true. cbv iota.
    destruct (JsString.split "/" (String "@" rest)) as [|p0 [|p1 ps]]; [done..|].
    simpl in Hlen. lia. }
  split; [done|].
  rewrite addDependency_used, isPathLike_scoped by done. rewrite Hname.
  do 2 f_equal. unfold Analyzer.typesOf. f_equal.
  change (JsString.replace "@" "" (String "@" rest)) with rest.
  apply replace_no_separator.
  simpl in Hlen. destruct (JsString.split "/" rest) as [|p0 [|p1 ps]]; simpl in *; lia.
Qed.

(** The specifier [@foo]. *)
Lemma addDependency_scoped_one_segment_witness :
  Analyzer.pkgNameOf "@foo" = "@foo" ∧
  Analyzer.used (Analyzer.addDependency defaultAnalyzer lodashProject emptyScan "@foo")
    = Analyzer.used emptyScan ∪ {["@foo"]} ∪ {["@types/" +:+ "foo"]}.
Proof.
  apply (addDependency_scoped_one_segment defaultAnalyzer lodashProject emptyScan "foo").
  simpl. lia.
Defined.

(** ** Scope sharing *)

(** C3.  Let [d2] be a declared dependency (a key of the map that
    [getDependencies] returns) whose name starts with [@] and has the scope
    [scope], its first slash-separated segment.  If some name [d1] of the
    same scope is in the usage set after the loop over the files (the direct
    references), then [findUsedDependencies] returns a usage set that
    contains [d2], and [analyze] gives [d2] a verdict with [isUsed = true],
    whether or not [d2] is referenced itself. *)
Theorem shared_scope_is_used (path_relative : string → string → string)
    (this : Analyzer.t) (w : World) (deps : JsObject.t string) (scope d1 d2 : string) :
  Analyzer.getDependencies this w = Ok deps →
  d1 ∈ Analyzer.used (Analyzer.scanFiles path_relative this w (Analyzer.getSourceFiles this w)) →
  JsString.startsWith d1 "@" = true → Analyzer.scopeOf d1 = scope →
  d2 ∈ JsObject.ownKeys deps →
  JsString.startsWith d2 "@" = true → Analyzer.scopeOf d2 = scope →
  ∃ usedDeps results out,
    Analyzer.findUsedDependencies path_relative this w (Analyzer.getSourceFiles this w)
      = (Ok usedDeps, out) ∧
    d2 ∈ usedDeps ∧
    Analyzer.analyze path_relative this w = (Ok results, out) ∧
    ∃ v, v ∈ results ∧ DependencyUsage.name v = d2 ∧ DependencyUsage.isUsed v = true.
Proof.
  intros Hdeps Hd1 Hat1 Hs1 Hd2 Hat2 Hs2.
  set (files := Analyzer.getSourceFiles this w) in *.
  set (used := Analyzer.reactDom
                 (Analyzer.used (Analyzer.scanFiles path_relative this w files))).
  assert (scope ∈ Analyzer.usedScopesOf used) as Hscope.
  { rewrite <- Hs1. apply elem_of_usedScopesOf; [|done]. by apply reactDom_subseteq. }
  set (usedDeps := fold_left (Analyzer.shareScope (Analyzer.usedScopesOf used))
                     (JsObject.ownKeys deps) used).
  assert (Analyzer.findUsedDependencies path_relative this w files
          = (Ok usedDeps, Analyzer.log (Analyzer.scanFiles path_relative this w files)))
    as Hfind.
  { unfold Analyzer.findUsedDependencies. fold used.
    by rewrite (usedScopesOf_size _ _ Hscope), Hdeps. }
  assert (d2 ∈ usedDeps) as Hin.
  { apply shareScope_marks; [done..|]. by rewrite Hs2. }
  exists usedDeps, (map (Analyzer.verdict this usedDeps) (JsObject.ownKeys deps)),
    (Analyzer.log (Analyzer.scanFiles path_relative this w files)).
  split_and!; [done | done | |].
  - unfold Analyzer.analyze. fold files. by rewrite Hdeps, Hfind.
  - exists (Analyzer.verdict this usedDeps d2). split_and!.
    + by apply list_elem_of_fmap_2.
    + apply verdict_name.
    + apply (proj2 (verdict_isUsed this usedDeps d2)). by right.
Qed.

(** [@acme/button] is imported, [@acme/icons] is only declared. *)
Lemma shared_scope_is_used_witness :
  ∃ usedDeps results out,
    Analyzer.findUsedDependencies relativeName defaultAnalyzer acmeProject
      (Analyzer.getSourceFiles defaultAnalyzer acmeProject) = (Ok usedDeps, out) ∧
    "@acme/icons" ∈ usedDeps ∧
    Analyzer.analyze relativeName defaultAnalyzer acmeProject = (Ok results, out) ∧
    ∃ v, v ∈ results ∧ DependencyUsage.name v = "@acme/icons"
         ∧ DependencyUsage.isUsed v = true.
Proof.
  apply (shared_scope_is_used relativeName defaultAnalyzer acmeProject
           [("@acme/button", "1.0.0"); ("@acme/icons", "1.0.0"); ("leftpad", "*")]
           "@acme" "@acme/button" "@acme/icons").
  - reflexivity.
  - vm_compute. reflexivity.
  - reflexivity.
  - reflexivity.
  - vm_compute. apply list_elem_of_In. simpl. tauto.
  - reflexivity.
  - reflexivity.
Defined.

(** ** The synthetic type-declaration identifier *)

(** C4, as stated, fails: the unscoped specifier [foo@1] is normalized to
    [foo@1], which has no leading [@]; the identifier of the claim would be
    [@types/foo@1], but the usage set receives [@types/foo1]. *)
Lemma types_identifier_inner_at :
  isPathLike (platform lodashProject) "foo@1" = false ∧
  Analyzer.pkgNameOf "foo@1" = "foo@1" ∧
  typesOfSpec "foo@1" = "@types/foo@1" ∧
  (typesOfSpec "foo@1"
     ∉ Analyzer.used (Analyzer.addDependency defaultAnalyzer lodashProject emptyScan "foo@1")) ∧
  Analyzer.used (Analyzer.addDependency defaultAnalyzer lodashProject emptyScan "foo@1")
    = {["foo@1"; "@types/foo1"]}.
Proof.
  split_and!; [reflexivity | reflexivity | reflexivity | | vm_compute; reflexivity].
  apply (proj1 (bool_decide_eq_false _)). vm_compute. reflexivity.
Qed.

Lemma typesOf_agrees (c : string) :
  JsString.startsWith c "@" = true ∨ contains "@" c = false →
  Analyzer.typesOf c = typesOfSpec c.
Proof.
  unfold Analyzer.typesOf, typesOfSpec. intros [[r ->]%startsWith_char | Hno].
  - done.
  - rewrite (replace_absent "@" "" c) by done. do 2 f_equal.
    destruct c as [|a c]; [done|]. simpl in *.
    by destruct (Ascii.eqb a "@").
Qed.

(** C4, amended.  For every specifier that is normalized to a canonical
    identifier [c] (every specifier that is not a path), the usage set
    receives [c] and the synthetic identifier [@types/] followed by [c]
    with its first [@] removed and then its first [/] replaced by [__].
    This is the identifier of the claim (leading [@] stripped) whenever [c]
    is scoped or contains no [@].  In particular, with [lodash],
    [@types/lodash] and [leftpad] declared and one file importing [lodash],
    both [lodash] and [@types/lodash] are in the usage set and the verdicts
    are: [lodash] used, [@types/lodash] used, [leftpad] unused. *)
Theorem addDependency_adds_types (path_relative : string → string → string)
    (this : Analyzer.t) (w : World) (set : Analyzer.Scan) (importPath : string) :
  isPathLike (platform w) importPath = false →
  (Analyzer.used (Analyzer.addDependency this w set importPath)
     = Analyzer.used set
         ∪ {[Analyzer.pkgNameOf importPath]}
         ∪ {["@types/"
               +:+ JsString.replace "/" "__"
                     (JsString.replace "@" "" (Analyzer.pkgNameOf importPath))]}) ∧
  (JsString.startsWith (Analyzer.pkgNameOf importPath) "@" = true
   ∨ contains "@" (Analyzer.pkgNameOf importPath) = false →
   typesOfSpec (Analyzer.pkgNameOf importPath)
     ∈ Analyzer.used (Analyzer.addDependency this w set importPath)) ∧
  fst (Analyzer.findUsedDependencies path_relative defaultAnalyzer lodashProject
         (Analyzer.getSourceFiles defaultAnalyzer lodashProject))
    = Ok {["lodash"; "@types/lodash"]} ∧
  fst (Analyzer.analyze path_relative defaultAnalyzer lodashProject)
    = Ok [DependencyUsage.mk "lodash" true [];
          DependencyUsage.mk "@types/lodash" true [];
          DependencyUsage.mk "leftpad" false []].
Proof.
  intros Hp. split_and!.
  - by rewrite addDependency_used, Hp.
  - intros Hc. rewrite addDependency_used, Hp, <- (typesOf_agrees _ Hc). set_solver.
  - vm_compute. reflexivity.
  - vm_compute. reflexivity.
Qed.

(** The specifier [@acme/button/lib]. *)
Lemma addDependency_adds_types_witness :
  (Analyzer.used (Analyzer.addDependency defaultAnalyzer acmeProject emptyScan "@acme/button/lib")
     = Analyzer.used emptyScan
         ∪ {[Analyzer.pkgNameOf "@acme/button/lib"]}
         ∪ {["@types/"
               +:+ JsString.replace "/" "__"
                     (JsString.replace "@" "" (Analyzer.pkgNameOf "@acme/button/lib"))]}) ∧
  (JsString.startsWith (Analyzer.pkgNameOf "@acme/button/lib") "@" = true
   ∨ contains "@" (Analyzer.pkgNameOf "@acme/button/lib") = false →
   typesOfSpec (Analyzer.pkgNameOf "@acme/button/lib")
     ∈ Analyzer.used (Analyzer.addDependency defaultAnalyzer acmeProject emptyScan
                        "@acme/button/lib")) ∧
  fst (Analyzer.findUsedDependencies relativeName defaultAnalyzer lodashProject
         (Analyzer.getSourceFiles defaultAnalyzer lodashProject))
    = Ok {["lodash"; "@types/lodash"]} ∧
  fst (Analyzer.analyze relativeName defaultAnalyzer lodashProject)
    = Ok [DependencyUsage.mk "lodash" true [];
          DependencyUsage.mk "@types/lodash" true [];
          DependencyUsage.mk "leftpad" false []].
Proof.
  apply (addDependency_adds_types relativeName defaultAnalyzer acmeProject emptyScan
           "@acme/button/lib").
  reflexivity.
Defined.

(** ** Paths never enter the usage set *)

(** C6.  A specifier that begins with [.] or is an absolute file path (for
    either path flavour of [path.isAbsolute]) makes [addDependency] return
    the usage set unchanged; and no such string is a member of the usage
    set after the loop over the files, after the React heuristic, or in the
    set that [findUsedDependencies] returns after the scope heuristic. *)
Theorem usage_set_has_no_path (path_relative : string → string → string)
    (this : Analyzer.t) (w : World) (files : list SourceFile) :
  (∀ set importPath,
     isPathLike (platform w) importPath = true →
     Analyzer.addDependency this w set importPath = set) ∧
  pathFree (platform w)
    (Analyzer.used (Analyzer.scanFiles path_relative this w files)) ∧
  pathFree (platform w)
    (Analyzer.reactDom (Analyzer.used (Analyzer.scanFiles path_relative this w files))) ∧
  (∀ usedDeps out,
     Analyzer.findUsedDependencies path_relative this w files = (Ok usedDeps, out) →
     pathFree (platform w) usedDeps).
Proof.
  split_and!.
  - intros set importPath Hp. unfold Analyzer.addDependency.
    unfold isPathLike in Hp.
    destruct (JsString.startsWith importPath "."); [done|].
    simpl in Hp. by rewrite Hp.
  - apply scanFiles_pathFree.
  - apply reactDom_pathFree, scanFiles_pathFree.
  - intros usedDeps out. apply findUsedDependencies_pathFree.
Qed.

(** A project whose files require [./local] and two packages. *)
Lemma usage_set_has_no_path_witness :
  Analyzer.addDependency defaultAnalyzer brokenProject emptyScan "./local" = emptyScan ∧
  Analyzer.addDependency defaultAnalyzer brokenProject emptyScan "/usr/lib/x.js" = emptyScan ∧
  pathFree Path.Posix
    (Analyzer.used (Analyzer.scanFiles relativeName defaultAnalyzer brokenProject
                      (sourceFiles brokenProject))) ∧
  pathFree Path.Posix {["lodash"; "@types/lodash"; "leftpad"; "@types/leftpad"]}.
Proof.
  destruct (usage_set_has_no_path relativeName defaultAnalyzer brokenProject
              (sourceFiles brokenProject)) as (Hadd & Hscan & _ & Hfind).
  split_and!.
  - apply Hadd. reflexivity.
  - apply Hadd. reflexivity.
  - exact Hscan.
  - eapply Hfind. vm_compute. reflexivity.
Defined.

(** ** A file that cannot be parsed *)

(** C7.  When reading or parsing one file throws, the usage set after the
    loop is the one obtained without that file: the file contributes no
    reference and every other file, before and after it, is still scanned.
    A warning that names the file and gives the reason is logged, also in
    the output of [findUsedDependencies], whose result is the one obtained
    without the file; with a readable manifest that result is a usage set,
    so the scan does not abort. *)
Theorem parse_failure_is_absorbed (path_relative : string → string → string)
    (this : Analyzer.t) (w : World) (before after : list SourceFile)
    (file : SourceFile) (why : Error) :
  parsed file = ParseFailure why →
  let warning :=
    mkLog LevelWarn
      ("Failed to parse " +:+ path file +:+ ": " +:+ message why
         +:+ ". Usage in this file may be missed.") in
  Analyzer.used (Analyzer.scanFiles path_relative this w (before ++ file :: after))
    = Analyzer.used (Analyzer.scanFiles path_relative this w (before ++ after)) ∧
  warning ∈ Analyzer.log (Analyzer.scanFiles path_relative this w (before ++ file :: after)) ∧
  fst (Analyzer.findUsedDependencies path_relative this w (before ++ file :: after))
    = fst (Analyzer.findUsedDependencies path_relative this w (before ++ after)) ∧
  warning ∈ snd (Analyzer.findUsedDependencies path_relative this w (before ++ file :: after)) ∧
  (∀ members, manifest w = Manifest members →
     ∃ usedDeps,
       fst (Analyzer.findUsedDependencies path_relative this w (before ++ file :: after))
         = Ok usedDeps).
Proof.
  intros Hfile warning.
  assert (Analyzer.used (Analyzer.scanFiles path_relative this w (before ++ file :: after))
          = Analyzer.used (Analyzer.scanFiles path_relative this w (before ++ after)))
    as Hused.
  { unfold Analyzer.scanFiles. rewrite !fold_left_app. simpl.
    apply scan_used_ext. by apply scanFile_failure with why. }
  assert (warning ∈ Analyzer.log
            (Analyzer.scanFiles path_relative this w (before ++ file :: after)))
    as Hlog.
  { unfold Analyzer.scanFiles. rewrite fold_left_app. simpl.
    apply (keepsLog_fold (Analyzer.scanFile path_relative this w) after
             (keepsLog_scanFile path_relative this w)).
    by apply scanFile_failure. }
  split_and!; [done | done | | |].
  - by apply findUsedDependencies_ext.
  - by rewrite findUsedDependencies_log.
  - intros members. apply findUsedDependencies_total.
Qed.

(** The second of three files cannot be parsed. *)
Lemma parse_failure_is_absorbed_witness :
  let warning :=
    mkLog LevelWarn
      ("Failed to parse " +:+ path brokenFile +:+ ": "
         +:+ message (mkError "Unexpected token (1:0)")
         +:+ ". Usage in this file may be missed.") in
  Analyzer.used (Analyzer.scanFiles relativeName defaultAnalyzer brokenProject
                   ([goodFile] ++ brokenFile :: [lastFile]))
    = Analyzer.used (Analyzer.scanFiles relativeName defaultAnalyzer brokenProject
                       ([goodFile] ++ [lastFile])) ∧
  warning ∈ Analyzer.log (Analyzer.scanFiles relativeName defaultAnalyzer brokenProject
                            ([goodFile] ++ brokenFile :: [lastFile])) ∧
  fst (Analyzer.findUsedDependencies relativeName defaultAnalyzer brokenProject
         ([goodFile] ++ brokenFile :: [lastFile]))
    = fst (Analyzer.findUsedDependencies relativeName defaultAnalyzer brokenProject
             ([goodFile] ++ [lastFile])) ∧
  warning ∈ snd (Analyzer.findUsedDependencies relativeName defaultAnalyzer brokenProject
                   ([goodFile] ++ brokenFile :: [lastFile])) ∧
  (∀ members, manifest brokenProject = Manifest members →
     ∃ usedDeps,
       fst (Analyzer.findUsedDependencies relativeName defaultAnalyzer brokenProject
              ([goodFile] ++ brokenFile :: [lastFile]))
         = Ok usedDeps).
Proof.
  apply (parse_failure_is_absorbed relativeName defaultAnalyzer brokenProject
           [goodFile] [lastFile] brokenFile (mkError "Unexpected token (1:0)")).
  reflexivity.
Defined.

(** ** The ignore list *)

Section Configuration.

Variable JSON_parse : string → option json.

(** One configuration file appends what it declares, and logs nothing but
    warnings. *)
Lemma loadFile_appends (w : World) (config : Config.t) (out : list LogEntry)
    (file : string) :
  ∃ warnings,
    Config.loadFile JSON_parse w (config, out) file
      = (Config.mk (Config.ignore config ++ declaredEntries JSON_parse w file),
         out ++ warnings) ∧
    Forall (fun e => level e = LevelWarn) warnings.
Proof.
  unfold Config.loadFile, Config.push, declaredEntries.
  assert (∀ c o, ∃ warnings,
            (c, o) = (Config.mk (Config.ignore c ++ []), o ++ warnings) ∧
            Forall (fun e => level e = LevelWarn) warnings) as Hsame.
  { intros [ig] o. exists []. by rewrite !app_nil_r. }
  assert (∀ c o, ∃ warnings,
            (c, o ++ [Config.warnParse file])
              = (Config.mk (Config.ignore c ++ []), o ++ warnings) ∧
            Forall (fun e => level e = LevelWarn) warnings) as Hwarn.
  { intros [ig] o. exists [Config.warnParse file]. rewrite app_nil_r.
    split; [done|]. by repeat constructor. }
  assert (∀ c o new, ∃ warnings,
            (Config.mk (Config.ignore c ++ new), o)
              = (Config.mk (Config.ignore c ++ new), o ++ warnings) ∧
            Forall (fun e => level e = LevelWarn) warnings) as Hpush.
  { intros c o new. exists []. by rewrite app_nil_r. }
  destruct (configFile w file) as [| | content]; [done..|].
  destruct (JsString.endsWith file ".json"); cbn [negb]; [|done].
  destruct (JSON_parse content) as [[| | | | |members]|]; try done.
  destruct (JsObject.get "ignore" (JsObject.fromEntries members)) as [[| | | | |]|]; done.
Qed.

(** The configuration files append what they declare, one after the other. *)
Lemma loadFiles_appends (w : World) (files : list string) (config : Config.t)
    (out : list LogEntry) :
  ∃ warnings,
    fold_left (Config.loadFile JSON_parse w) files (config, out)
      = (Config.mk (Config.ignore config
                      ++ concat (map (declaredEntries JSON_parse w) files)),
         out ++ warnings) ∧
    Forall (fun e => level e = LevelWarn) warnings.
Proof.
  revert config out. induction files as [|file files IH]; intros config out;
    cbn [fold_left map concat].
  - exists []. destruct config. by rewrite !app_nil_r.
  - destruct (loadFile_appends w config out file) as (w1 & -> & Hw1).
    destruct (IH (Config.mk (Config.ignore config ++ declaredEntries JSON_parse w file))
                (out ++ w1)) as (w2 & -> & Hw2).
    exists (w1 ++ w2). cbn [Config.ignore]. rewrite !app_assoc.
    split; [done|]. by apply Forall_app.
Qed.

Lemma loadConfig_ignore (w : World) (ignoreFile : option string) :
  Config.ignore (fst (Config.loadConfig JSON_parse w ignoreFile))
    = map JString Config.defaultIgnore
        ++ concat (map (declaredEntries JSON_parse w)
                     (Config.possibleConfigFiles ignoreFile)).
Proof.
  unfold Config.loadConfig.
  by destruct (loadFiles_appends w (Config.possibleConfigFiles ignoreFile)
                 (Config.mk (map JString Config.defaultIgnore)) [])
    as (warnings & -> & _).
Qed.

(** A line of a line-separated file that counts is declared by the file. *)
Lemma declaredEntries_line (w : World) (file content line : string) :
  configFile w file = ConfigContent content →
  JsString.endsWith file ".json" = false →
  line ∈ JsString.split "010" content →
  JsString.trim line ≠ EmptyString →
  JsString.startsWith (JsString.trim line) "#" = false →
  JString (JsString.trim line) ∈ declaredEntries JSON_parse w file.
Proof.
  intros Hfile Hjson Hline Hempty Hcomment. unfold declaredEntries.
  rewrite Hfile, Hjson. apply elem_of_list_map. exists (JsString.trim line).
  split; [done|]. apply elem_of_ignoreLines. by exists line.
Qed.

(** An item of the [ignore] array of a JSON file is declared by the file. *)
Lemma declaredEntries_item (w : World) (file content : string)
    (members : list (string * json)) (items : list json) (item : json) :
  configFile w file = ConfigContent content →
  JsString.endsWith file ".json" = true →
  JSON_parse content = Some (JObject members) →
  JsObject.get "ignore" (JsObject.fromEntries members) = Some (JArray items) →
  item ∈ items →
  item ∈ declaredEntries JSON_parse w file.
Proof.
  intros Hfile Hjson Hparse Hignore Hitem. unfold declaredEntries.
  by rewrite Hfile, Hjson, Hparse, Hignore.
Qed.

(** Whatever a file declares is a line that counts or an item of the array. *)
Lemma declaredEntries_inv (w : World) (file : string) (entry : json) :
  entry ∈ declaredEntries JSON_parse w file →
  ∃ content, configFile w file = ConfigContent content ∧
    ((JsString.endsWith file ".json" = false ∧
      ∃ line, line ∈ JsString.split "010" content ∧ entry = JString (JsString.trim line)
              ∧ JsString.trim line ≠ EmptyString
              ∧ JsString.startsWith (JsString.trim line) "#" = false)
     ∨ (JsString.endsWith file ".json" = true ∧
        ∃ members items, JSON_parse content = Some (JObject members)
          ∧ JsObject.get "ignore" (JsObject.fromEntries members) = Some (JArray items)
          ∧ entry ∈ items)).
Proof.
  unfold declaredEntries.
  destruct (configFile w file) as [| |content]; [by intros ?%elem_of_nil..|].
  intros Hentry. exists content. split; [done|].
  destruct (JsString.endsWith file ".json").
  - right. split; [done|].
    destruct (JSON_parse content) as [[| | | | |members]|] eqn:Hparse;
      try by apply elem_of_nil in Hentry.
    destruct (JsObject.get "ignore" (JsObject.fromEntries members))
      as [[| | | |items|]|] eqn:Hignore; try by apply elem_of_nil in Hentry.
    by exists members, items.
  - left. split; [done|].
    apply elem_of_list_map in Hentry as (l & -> & Hl).
    apply elem_of_ignoreLines in Hl as (line & Hline & -> & Hempty & Hcomment).
    by exists line.
Qed.

(** C10.  Whatever the project and the ignore file asked for (none, a
    custom one, one that is missing, unreadable or not valid JSON), the
    ignore list that [loadConfig] returns is the baseline [@types/node],
    [typescript], [ts-node] followed by the entries of the project: what
    the possible configuration files declare, file after file.  Every line
    that counts of a line-separated file (trimmed, not empty, not a [#]
    comment) and every item of the [ignore] array of a JSON file is among
    these entries, and they hold nothing else; all three baseline entries
    are in the list. *)
Theorem loadConfig_keeps_baseline (w : World) (ignoreFile : option string) :
  (∃ projectEntries : list json,
     Config.ignore (fst (Config.loadConfig JSON_parse w ignoreFile))
       = map JString Config.defaultIgnore ++ projectEntries ∧
     projectEntries
       = concat (map (declaredEntries JSON_parse w)
                   (Config.possibleConfigFiles ignoreFile)) ∧
     (∀ file content line,
        file ∈ Config.possibleConfigFiles ignoreFile →
        configFile w file = ConfigContent content →
        JsString.endsWith file ".json" = false →
        line ∈ JsString.split "010" content →
        JsString.trim line ≠ EmptyString →
        JsString.startsWith (JsString.trim line) "#" = false →
        JString (JsString.trim line) ∈ projectEntries) ∧
     (∀ file content members items item,
        file ∈ Config.possibleConfigFiles ignoreFile →
        configFile w file = ConfigContent content →
        JsString.endsWith file ".json" = true →
        JSON_parse content = Some (JObject members) →
        JsObject.get "ignore" (JsObject.fromEntries members) = Some (JArray items) →
        item ∈ items →
        item ∈ projectEntries) ∧
     (∀ entry,
        entry ∈ projectEntries →
        ∃ file content,
          file ∈ Config.possibleConfigFiles ignoreFile ∧
          configFile w file = ConfigContent content ∧
          ((JsString.endsWith file ".json" = false ∧
            ∃ line, line ∈ JsString.split "010" content
                    ∧ entry = JString (JsString.trim line)
                    ∧ JsString.trim line ≠ EmptyString
                    ∧ JsString.startsWith (JsString.trim line) "#" = false)
           ∨ (JsString.endsWith file ".json" = true ∧
              ∃ members items,
                JSON_parse content = Some (JObject members)
                ∧ JsObject.get "ignore" (JsObject.fromEntries members)
                  = Some (JArray items)
                ∧ entry ∈ items)))) ∧
  Config.defaultIgnore = ["@types/node"; "typescript"; "ts-node"] ∧
  JString "@types/node" ∈ Config.ignore (fst (Config.loadConfig JSON_parse w ignoreFile)) ∧
  JString "typescript" ∈ Config.ignore (fst (Config.loadConfig JSON_parse w ignoreFile)) ∧
  JString "ts-node" ∈ Config.ignore (fst (Config.loadConfig JSON_parse w ignoreFile)).
Proof.
  rewrite loadConfig_ignore. split_and!.
  - eexists. split_and!; [reflexivity..| | |].
    + intros file content line Hfile Hcontent Hjson Hline Hempty Hcomment.
      apply list_elem_of_In, in_concat. exists (declaredEntries JSON_parse w file).
      split; [apply in_map; by apply list_elem_of_In|].
      apply list_elem_of_In. by eapply declaredEntries_line.
    + intros file content members items item Hfile Hcontent Hjson Hparse Hignore Hitem.
      apply list_elem_of_In, in_concat. exists (declaredEntries JSON_parse w file).
      split; [apply in_map; by apply list_elem_of_In|].
      apply list_elem_of_In. by eapply declaredEntries_item.
    + intros entry (entries & (file & <- & Hfile)%in_map_iff & Hentry)%list_elem_of_In%in_concat.
      apply list_elem_of_In in Hfile, Hentry.
      apply declaredEntries_inv in Hentry as (content & Hcontent & Hcases).
      by exists file, content.
  - done.
  - apply elem_of_app. left. unfold Config.defaultIgnore. set_solver.
  - apply elem_of_app. left. unfold Config.defaultIgnore. set_solver.
  - apply elem_of_app. left. unfold Config.defaultIgnore. set_solver.
Qed.

Lemma loadConfig_warnings (w : World) (ignoreFile : option string) :
  Forall (fun e => level e = LevelWarn) (snd (Config.loadConfig JSON_parse w ignoreFile)).
Proof.
  unfold Config.loadConfig.
  by destruct (loadFiles_appends w (Config.possibleConfigFiles ignoreFile)
                 (Config.mk (map JString Config.defaultIgnore)) [])
    as (warnings & -> & ?).
Qed.

End Configuration.

(** [.unusedrc.json] holds an array with a string and a number: both come
    after the baseline.  The line [leftpad] of an [.unusedignore] does so
    too, whereas its comment line does not. *)
Lemma loadConfig_keeps_baseline_witness :
  (∃ projectEntries : list json,
     Config.ignore (fst (Config.loadConfig parseRc rcFileProject None))
       = map JString Config.defaultIgnore ++ projectEntries ∧
     JString "chalk" ∈ projectEntries ∧ JNumber "1" ∈ projectEntries) ∧
  (∃ projectEntries : list json,
     Config.ignore (fst (Config.loadConfig noJson ignoreFileProject None))
       = map JString Config.defaultIgnore ++ projectEntries ∧
     JString "leftpad" ∈ projectEntries ∧
     JString "# kept on purpose" ∉ projectEntries).
Proof.
  split.
  - destruct (loadConfig_keeps_baseline parseRc rcFileProject None)
      as [(entries & Hloaded & _ & _ & Hitems & _) _].
    exists entries. split; [exact Hloaded|].
    split;
      apply (Hitems ".unusedrc.json" rcContent
               [("ignore", JArray [JString "chalk"; JNumber "1"])]
               [JString "chalk"; JNumber "1"]);
      try reflexivity; repeat constructor.
  - destruct (loadConfig_keeps_baseline noJson ignoreFileProject None)
      as [(entries & Hloaded & Hentries & Hlines & _) _].
    exists entries. split; [exact Hloaded|]. split.
    + apply (Hlines ".unusedignore"
               ("# kept on purpose" +:+ String "010" (" leftpad " +:+ String "010" ""))
               " leftpad "); try reflexivity; [repeat constructor..|discriminate].
    + rewrite Hentries. vm_compute. intros Hin.
      repeat (apply elem_of_cons in Hin as [Hin|Hin]; [discriminate|]).
      by apply elem_of_nil in Hin.
Defined.

(** ** No manifest *)



(** ** One verdict per declared name *)

(** C5, as stated, fails: [react] is declared in the peer section, and the
    analyzer, even with the dev flag set, returns verdicts for [lodash] and
    [jest] only. *)
Lemma peer_dependency_has_no_verdict :
  "react" ∈ declaredIn "peerDependencies"
              [("dependencies", [("lodash", "*")]);
               ("devDependencies", [("jest", "*")]);
               ("peerDependencies", [("react", "*")])] ∧
  Analyzer.analyze relativeName devAnalyzer peerProject
    = (Ok [DependencyUsage.mk "lodash" true []; DependencyUsage.mk "jest" false []], []) ∧
  "react" ∉ names [DependencyUsage.mk "lodash" true []; DependencyUsage.mk "jest" false []].
Proof.
  split_and!.
  - vm_compute. apply list_elem_of_In. simpl. tauto.
  - vm_compute. reflexivity.
  - intros Hin%list_elem_of_In. simpl in Hin. naive_solver.
Qed.

(** C5, amended.  Once the manifest has been read, [analyze] does not fail
    and produces exactly one verdict for every name declared in the
    [dependencies] section and, when [checkDevDeps] is set, in the
    [devDependencies] section; peer and optional sections are never read.
    The verdicts come in the order of [Object.keys] of the merged map; when
    no name is an array index, that is the declaration order: the runtime
    names, then the dev names that are not runtime names as well. *)
Theorem analyze_one_verdict_per_name (path_relative : string → string → string)
    (this : Analyzer.t) (w : World) (members : PackageJson) :
  manifest w = Manifest members →
  ∃ deps results out,
    Analyzer.getDependencies this w = Ok deps ∧
    Analyzer.analyze path_relative this w = (Ok results, out) ∧
    names results = JsObject.ownKeys deps ∧
    NoDup (names results) ∧
    (∀ name, name ∈ names results ↔
       name ∈ declaredIn "dependencies" members ∨
       (Analyzer.checkDevDeps this = true ∧ name ∈ declaredIn "devDependencies" members)) ∧
    ((∀ name, name ∈ names results → JsObject.isArrayIndex name = false) →
     names results
     = declaredIn "dependencies" members
         ++ (if Analyzer.checkDevDeps this
             then filter (fun name => name ∉ declaredIn "dependencies" members)
                    (declaredIn "devDependencies" members)
             else [])).
Proof.
  intros Hm.
  destruct (getDependencies_keys this w members Hm) as (deps & Hdeps & Hnd & Hin & Hord).
  destruct (findUsedDependencies_total path_relative this w
              (Analyzer.getSourceFiles this w) members Hm) as [usedDeps Hused].
  destruct (Analyzer.findUsedDependencies path_relative this w
              (Analyzer.getSourceFiles this w)) as [found out] eqn:Hfind.
  simpl in Hused. subst found.
  assert (names (map (Analyzer.verdict this usedDeps) (JsObject.ownKeys deps))
          = JsObject.ownKeys deps) as Hnames.
  { unfold names. rewrite map_map. erewrite map_ext; [apply map_id|].
    intros name. apply verdict_name. }
  exists deps, (map (Analyzer.verdict this usedDeps) (JsObject.ownKeys deps)), out.
  rewrite Hnames. split_and!.
  - done.
  - unfold Analyzer.analyze. by rewrite Hdeps, Hfind.
  - done.
  - by apply NoDup_ownKeys.
  - intros name. by rewrite elem_of_ownKeys.
  - intros Hno.
    assert (∀ name, name ∈ map fst deps → JsObject.isArrayIndex name = false) as Hno'.
    { intros name Hname. by apply Hno, elem_of_ownKeys. }
    rewrite ownKeys_creation_order by done. by apply Hord.
Qed.

(** A manifest with runtime, dev and peer sections, analysed with the dev flag. *)
Lemma analyze_one_verdict_per_name_witness :
  ∃ deps results out,
    Analyzer.getDependencies devAnalyzer peerProject = Ok deps ∧
    Analyzer.analyze relativeName devAnalyzer peerProject = (Ok results, out) ∧
    names results = JsObject.ownKeys deps ∧
    NoDup (names results) ∧
    (∀ name, name ∈ names results ↔
       name ∈ declaredIn "dependencies"
                [("dependencies", [("lodash", "*")]);
                 ("devDependencies", [("jest", "*")]);
                 ("peerDependencies", [("react", "*")])] ∨
       (Analyzer.checkDevDeps devAnalyzer = true ∧
        name ∈ declaredIn "devDependencies"
                 [("dependencies", [("lodash", "*")]);
                  ("devDependencies", [("jest", "*")]);
                  ("peerDependencies", [("react", "*")])])) ∧
    ((∀ name, name ∈ names results → JsObject.isArrayIndex name = false) →
     names results
     = declaredIn "dependencies"
         [("dependencies", [("lodash", "*")]);
          ("devDependencies", [("jest", "*")]);
          ("peerDependencies", [("react", "*")])]
         ++ (if Analyzer.checkDevDeps devAnalyzer
             then filter
                    (fun name =>
                       name ∉ declaredIn "dependencies"
                                [("dependencies", [("lodash", "*")]);
                                 ("devDependencies", [("jest", "*")]);
                                 ("peerDependencies", [("react", "*")])])
                    (declaredIn "devDependencies"
                       [("dependencies", [("lodash", "*")]);
                        ("devDependencies", [("jest", "*")]);
                        ("peerDependencies", [("react", "*")])])
             else [])).
Proof.
  apply (analyze_one_verdict_per_name relativeName devAnalyzer peerProject).
  reflexivity.
Defined.

(** ** Removing dependencies *)

(** C9 at a manifest that declares [leftpad] with the empty version range:
    [analyze] reports [leftpad] as unused, and [removeDependencies], asked
    to remove it, takes the backup and writes the manifest back with
    [leftpad] still in the [dependencies] section. *)
Theorem empty_version_is_not_removed :
  fst (Analyzer.analyze relativeName defaultAnalyzer emptyVersionProject)
    = Ok [DependencyUsage.mk "leftpad" false []; DependencyUsage.mk "lodash" true []] ∧
  ∃ w,
    Cleaner.removeDependencies (Cleaner.new "/proj") ["leftpad"] emptyVersionProject = Ok w ∧
    backup w = Some (manifest emptyVersionProject) ∧
    manifest w = Manifest [("dependencies", [("leftpad", ""); ("lodash", "*")])] ∧
    "leftpad" ∈ declaredIn "dependencies" [("dependencies", [("leftpad", ""); ("lodash", "*")])].
Proof.
  split; [vm_compute; reflexivity|].
  eexists. split_and!.
  - reflexivity.
  - reflexivity.
  - reflexivity.
  - vm_compute. apply list_elem_of_In. simpl. tauto.
Qed.

Lemma versionIn_bind (section name : string) (members : PackageJson) :
  versionIn section name members
  = JsObject.get section (readJSON members) ≫= JsObject.get name.
Proof. unfold versionIn. by destruct (JsObject.get section (readJSON members)). Qed.

(** Where the cleaner and C9 agree.  For a non-empty removal list and a
    readable manifest, [removeDependencies] keeps the old manifest as the
    backup and writes a manifest in which, in each of the four dependency
    sections, a named entry is gone unless its version is the empty string,
    every other entry of every section has the version it had, and no
    dependency section is left without entries. *)
Theorem removeDependencies_effect (this : Cleaner.t) (dependenciesToRemove : list string)
    (w : World) (members : PackageJson) :
  dependenciesToRemove ≠ [] →
  manifest w = Manifest members →
  ∃ w' members',
    Cleaner.removeDependencies this dependenciesToRemove w = Ok w' ∧
    backup w' = Some (Manifest members) ∧
    manifest w' = Manifest members' ∧
    (∀ section name,
       versionIn section name members'
       = if decide (section ∈ Cleaner.depTypes ∧ name ∈ dependenciesToRemove)
         then afterRemoval (versionIn section name members)
         else versionIn section name members) ∧
    (∀ section, section ∈ Cleaner.depTypes →
       declaredIn section members' = [] →
       JsObject.get section (readJSON members') = None).
Proof.
  intros Hdeps Hm.
  set (pkg := fold_left (Cleaner.cleanSection dependenciesToRemove) Cleaner.depTypes
                (readJSON members)).
  assert (NoDup (map fst pkg)) as Hnd.
  { apply cleanSections_NoDup, NoDup_keys_fromEntries. }
  assert (∀ section,
            JsObject.get section pkg
            = if decide (section ∈ Cleaner.depTypes)
              then cleaned dependenciesToRemove (JsObject.get section (readJSON members))
              else JsObject.get section (readJSON members)) as Hget.
  { intros section. apply cleanSections_get, depTypes_NoDup. }
  assert (∀ section s, JsObject.get section pkg = Some s →
            NoDup (map fst s)
            ∧ (section ∈ Cleaner.depTypes → JsObject.ownKeys s ≠ [])) as Hsec.
  { intros section s. rewrite Hget. case_decide as Hin.
    - intros Hs. eapply cleaned_NoDup in Hs as [? ?]; [done|].
      intros s0. apply NoDup_section.
    - intros Hs%NoDup_section. done. }
  exists {| platform := platform w; cwd := cwd w; manifest := Manifest (writeJSON pkg);
            backup := Some (Manifest members); sourceFiles := sourceFiles w;
            configFile := configFile w |}, (writeJSON pkg).
  split_and!.
  - unfold Cleaner.removeDependencies.
    replace (length dependenciesToRemove =? 0)%nat with false
      by (by destruct dependenciesToRemove).
    unfold Cleaner.backupPackageJson. by rewrite Hm.
  - done.
  - done.
  - intros section name. rewrite !versionIn_bind, readJSON_writeJSON by done.
    destruct (JsObject.get section pkg) as [s|] eqn:Hs; simpl.
    + destruct (Hsec section s Hs) as [Hnds _].
      rewrite get_fromEntries_entries by done.
      change (JsObject.get name s) with (Some s ≫= JsObject.get name).
      rewrite <- Hs, Hget. destruct (decide (section ∈ Cleaner.depTypes)) as [Hin|Hout].
      * rewrite cleaned_get.
        destruct (decide (name ∈ dependenciesToRemove)).
        -- by rewrite decide_True.
        -- rewrite decide_False; [done | naive_solver].
      * rewrite decide_False; [done | naive_solver].
    + change (@None string) with (@None (JsObject.t string) ≫= JsObject.get name).
      rewrite <- Hs, Hget. destruct (decide (section ∈ Cleaner.depTypes)) as [Hin|Hout].
      * rewrite cleaned_get.
        destruct (decide (name ∈ dependenciesToRemove)).
        -- by rewrite decide_True.
        -- rewrite decide_False; [done | naive_solver].
      * rewrite decide_False; [done | naive_solver].
  - intros section Hin. unfold declaredIn. rewrite readJSON_writeJSON by done.
    destruct (JsObject.get section pkg) as [s|] eqn:Hs; simpl; [|done].
    destruct (Hsec section s Hs) as [Hnds Hkeys]. intros Hnil. exfalso.
    destruct (JsObject.ownKeys s) as [|k ks] eqn:Hks; [by apply Hkeys|].
    assert (k ∈ map fst s) as Hk by (apply elem_of_ownKeys; rewrite Hks; by left).
    apply get_is_Some in Hk.
    rewrite <- (get_fromEntries_entries s k Hnds) in Hk.
    apply get_is_Some in Hk. rewrite Hnil in Hk. by apply elem_of_nil in Hk.
Qed.

(** Removing [react] and [lodash] from a manifest with three sections. *)
Lemma removeDependencies_effect_witness :
  ∃ w' members',
    Cleaner.removeDependencies (Cleaner.new "/proj") ["react"; "lodash"] peerProject = Ok w' ∧
    backup w' = Some (manifest peerProject) ∧
    manifest w' = Manifest members' ∧
    versionIn "peerDependencies" "react" members' = None ∧
    versionIn "devDependencies" "jest" members' = Some "*" ∧
    versionIn "dependencies" "lodash" members' = None.
Proof.
  destruct (removeDependencies_effect (Cleaner.new "/proj") ["react"; "lodash"] peerProject
              [("dependencies", [("lodash", "*")]);
               ("devDependencies", [("jest", "*")]);
               ("peerDependencies", [("react", "*")])])
    as (w' & members' & Hrun & Hbackup & Hmanifest & Hversion & Hempty);
    [done | reflexivity |].
  exists w', members'. split_and!; [done | done | done | | |].
  - rewrite Hversion. reflexivity.
  - rewrite Hversion. reflexivity.
  - rewrite Hversion. reflexivity.
Defined.

(** * Further properties of the code *)

(** ** The normalizer *)

Lemma split_no_separator (sep : ascii) (s : string) :
  contains sep s = false → JsString.split sep s = [s].
Proof.
  induction s as [|c s IH]; simpl; [done|].
  destruct (Ascii.eqb c sep); simpl; [discriminate|].
  intros Hs. by rewrite IH.
Qed.

Lemma split_app_separator (sep : ascii) (s rest : string) :
  contains sep s = false →
  JsString.split sep (s +:+ String sep rest) = s :: JsString.split sep rest.
Proof.
  induction s as [|c s IH]; simpl.
  - intros _. by rewrite Ascii.eqb_refl.
  - destruct (Ascii.eqb c sep); simpl; [discriminate|].
    intros Hs. by rewrite IH.
Qed.

Lemma split_parts_no_separator (sep : ascii) (s : string) :
  Forall (fun part => contains sep part = false) (JsString.split sep s).
Proof.
  induction s as [|c s IH]; simpl; [by repeat constructor|].
  destruct (Ascii.eqb c sep) eqn:Hc; [by constructor|].
  destruct (JsString.split sep s) as [|part parts].
  { constructor; [simpl; by rewrite Hc | constructor]. }
  apply Forall_cons in IH as [Hpart Hparts]. constructor; [|done].
  simpl. by rewrite Hc.
Qed.

Lemma replace_app_separator (sep : ascii) (r s rest : string) :
  contains sep s = false →
  JsString.replace sep r (s +:+ String sep rest) = s +:+ r +:+ rest.
Proof.
  induction s as [|c s IH]; simpl.
  - intros _. by rewrite Ascii.eqb_refl.
  - destruct (Ascii.eqb c sep); simpl; [discriminate|].
    intros Hs. by rewrite IH.
Qed.

Lemma append_assoc (a b c : string) : (a +:+ b) +:+ c = a +:+ b +:+ c.
Proof.
  induction a as [|x a IH]; [done|].
  change (String x ((a +:+ b) +:+ c) = String x (a +:+ b +:+ c)). by f_equal.
Qed.

(** The package name of [@scope/name] and of any path below it. *)
Lemma pkgNameOf_scoped_name (scope name : string) :
  contains "/" scope = false → contains "/" name = false →
  Analyzer.pkgNameOf ("@" +:+ scope +:+ "/" +:+ name) = "@" +:+ scope +:+ "/" +:+ name.
Proof.
  intros Hscope Hname. unfold Analyzer.pkgNameOf.
  change ("@" +:+ scope +:+ "/" +:+ name) with (String "@" scope +:+ String "/" name).
  change (JsString.startsWith (String "@" scope +:+ String "/" name) "@") with true.
  cbv iota. rewrite split_app_separator by done.
  by rewrite split_no_separator.
Qed.

Lemma pkgNameOf_scoped_subpath (scope name subpath : string) :
  contains "/" scope = false → contains "/" name = false →
  Analyzer.pkgNameOf (("@" +:+ scope +:+ "/" +:+ name) +:+ "/" +:+ subpath)
  = "@" +:+ scope +:+ "/" +:+ name.
Proof.
  intros Hscope Hname.
  assert (("@" +:+ scope +:+ "/" +:+ name) +:+ "/" +:+ subpath
          = String "@" scope +:+ String "/" (name +:+ String "/" subpath)) as ->.
  { change (String "@" ((scope +:+ String "/" name) +:+ String "/" subpath)
            = String "@" (scope +:+ String "/" (name +:+ String "/" subpath))).
    f_equal. by rewrite append_assoc. }
  unfold Analyzer.pkgNameOf.
  change (JsString.startsWith
            (String "@" scope +:+ String "/" (name +:+ String "/" subpath)) "@")
    with true.
  cbv iota. rewrite (split_app_separator "/" (String "@" scope)) by done.
  by rewrite split_app_separator.
Qed.

Lemma typesOf_of_scoped (scope name : string) :
  contains "/" scope = false →
  Analyzer.typesOf ("@" +:+ scope +:+ "/" +:+ name) = "@types/" +:+ scope +:+ "__" +:+ name.
Proof.
  intros Hscope. unfold Analyzer.typesOf.
  change (JsString.replace "@" "" ("@" +:+ scope +:+ "/" +:+ name))
    with (scope +:+ String "/" name).
  by rewrite replace_app_separator.
Qed.

(** X1.  A scoped specifier [@scope/name], with or without a path below
    it, is normalized to [@scope/name]: [addDependency] adds exactly that
    name and [@types/scope__name] to the usage set, whatever the depth of
    the path. *)
Theorem scoped_specifier_is_normalized (this : Analyzer.t) (w : World)
    (set : Analyzer.Scan) (scope name subpath : string) :
  contains "/" scope = false → contains "/" name = false →
  Analyzer.used (Analyzer.addDependency this w set ("@" +:+ scope +:+ "/" +:+ name))
    = Analyzer.used set ∪ {["@" +:+ scope +:+ "/" +:+ name]}
        ∪ {["@types/" +:+ scope +:+ "__" +:+ name]} ∧
  Analyzer.used
    (Analyzer.addDependency this w set
       (("@" +:+ scope +:+ "/" +:+ name) +:+ "/" +:+ subpath))
    = Analyzer.used set ∪ {["@" +:+ scope +:+ "/" +:+ name]}
        ∪ {["@types/" +:+ scope +:+ "__" +:+ name]}.
Proof.
  intros Hscope Hname. split.
  - rewrite addDependency_used, isPathLike_scoped by done.
    by rewrite pkgNameOf_scoped_name, typesOf_of_scoped.
  - rewrite addDependency_used, isPathLike_scoped by done.
    by rewrite pkgNameOf_scoped_subpath, typesOf_of_scoped.
Qed.

(** [@babel/core] and [@babel/core/lib/config]. *)
Lemma scoped_specifier_is_normalized_witness :
  Analyzer.used (Analyzer.addDependency defaultAnalyzer lodashProject emptyScan
                   ("@" +:+ "babel" +:+ "/" +:+ "core"))
    = Analyzer.used emptyScan ∪ {["@" +:+ "babel" +:+ "/" +:+ "core"]}
        ∪ {["@types/" +:+ "babel" +:+ "__" +:+ "core"]} ∧
  Analyzer.used
    (Analyzer.addDependency defaultAnalyzer lodashProject emptyScan
       (("@" +:+ "babel" +:+ "/" +:+ "core") +:+ "/" +:+ "lib/config"))
    = Analyzer.used emptyScan ∪ {["@" +:+ "babel" +:+ "/" +:+ "core"]}
        ∪ {["@types/" +:+ "babel" +:+ "__" +:+ "core"]}.
Proof.
  apply (scoped_specifier_is_normalized defaultAnalyzer lodashProject emptyScan
           "babel" "core" "lib/config"); reflexivity.
Defined.





(** X3.  Normalizing twice is normalizing once: the package name of a
    package name is that name. *)
Theorem pkgNameOf_idempotent (importPath : string) :
  Analyzer.pkgNameOf (Analyzer.pkgNameOf importPath) = Analyzer.pkgNameOf importPath.
Proof.
  pose proof (split_parts_no_separator "/" importPath) as Hparts.
  destruct (JsString.startsWith importPath "@") eqn:Hat.
  - pose proof (pkgNameOf_scoped _ Hat) as Hscoped.
    unfold Analyzer.pkgNameOf in *. rewrite Hat in *.
    destruct (JsString.split "/" importPath) as [|p0 [|p1 ps]] eqn:Hsplit.
    + by rewrite Hat, Hsplit.
    + by rewrite Hat, Hsplit.
    + rewrite Hscoped. apply Forall_cons in Hparts as [Hp0 Hparts].
      apply Forall_cons in Hparts as [Hp1 _].
      change (p0 +:+ "/" +:+ p1) with (p0 +:+ String "/" p1).
      rewrite split_app_separator by done. by rewrite split_no_separator.
  - unfold Analyzer.pkgNameOf. rewrite Hat.
    destruct (JsString.split "/" importPath) as [|p0 ps] eqn:Hsplit.
    + by rewrite Hat, Hsplit.
    + apply Forall_cons in Hparts as [Hp0 _].
      destruct (split_head_prefix _ _ _ _ Hsplit) as [r ->].
      assert (JsString.startsWith p0 "@" = false) as ->.
      { destruct p0 as [|a p0]; [done|]. exact Hat. }
      by rewrite split_no_separator.
Qed.

(** ** Where the usage set comes from *)

(** The visitors add the reference of a node, if it has one. *)
Lemma visit_reference (this : Analyzer.t) (w : World) (set : Analyzer.Scan) (node : Node) :
  Analyzer.visit this w set node
  = match reference node with
    | Some specifier => Analyzer.addDependency this w set specifier
    | None => set
    end.
Proof.
  destruct node as [source | [name| |] [|[value|] args] | [source|] | [source|] | ];
    simpl; try reflexivity.
  all: by destruct (String.eqb name "require").
Qed.

Lemma elem_of_addDependency (this : Analyzer.t) (w : World) (set : Analyzer.Scan)
    (specifier x : string) :
  x ∈ Analyzer.used (Analyzer.addDependency this w set specifier)
  ↔ x ∈ Analyzer.used set ∨ derivedFrom (platform w) x specifier.
Proof.
  rewrite addDependency_used. unfold derivedFrom.
  destruct (isPathLike (platform w) specifier); [naive_solver|].
  rewrite !elem_of_union, !elem_of_singleton. naive_solver.
Qed.

Lemma elem_of_visits (this : Analyzer.t) (w : World) (nodes : list Node)
    (set : Analyzer.Scan) (x : string) :
  x ∈ Analyzer.used (fold_left (Analyzer.visit this w) nodes set)
  ↔ x ∈ Analyzer.used set
    ∨ ∃ specifier, specifier ∈ omap reference nodes ∧ derivedFrom (platform w) x specifier.
Proof.
  revert set. induction nodes as [|node nodes IH]; intros set; simpl.
  - split; [by left | intros [?|(? & ?%elem_of_nil & _)]; done].
  - rewrite IH, visit_reference. destruct (reference node) as [s|].
    + rewrite elem_of_addDependency. setoid_rewrite elem_of_cons. naive_solver.
    + naive_solver.
Qed.

Section DirectUsage.

Variable path_relative : string → string → string.

Lemma elem_of_scanFile (this : Analyzer.t) (w : World) (set : Analyzer.Scan)
    (file : SourceFile) (x : string) :
  x ∈ Analyzer.used (Analyzer.scanFile path_relative this w set file)
  ↔ x ∈ Analyzer.used set
    ∨ ∃ specifier, specifier ∈ references file ∧ derivedFrom (platform w) x specifier.
Proof.
  unfold Analyzer.scanFile, references. destruct (parsed file) as [why | nodes].
  - destruct (Analyzer.verbose this); simpl;
      (split; [by left | intros [?|(? & ?%elem_of_nil & _)]; done]).
  - rewrite elem_of_visits. by destruct (Analyzer.verbose this).
Qed.

Lemma elem_of_scan (this : Analyzer.t) (w : World) (files : list SourceFile)
    (set : Analyzer.Scan) (x : string) :
  x ∈ Analyzer.used (fold_left (Analyzer.scanFile path_relative this w) files set)
  ↔ x ∈ Analyzer.used set
    ∨ ∃ file specifier,
        file ∈ files ∧ specifier ∈ references file ∧ derivedFrom (platform w) x specifier.
Proof.
  revert set. induction files as [|file files IH]; intros set; simpl.
  - split; [by left | intros [?|(? & ? & ?%elem_of_nil & _)]; done].
  - rewrite IH, elem_of_scanFile. setoid_rewrite elem_of_cons. naive_solver.
Qed.

(** The usage set after the loop, file by file and specifier by specifier. *)
Lemma elem_of_scanFiles (this : Analyzer.t) (w : World) (files : list SourceFile)
    (x : string) :
  x ∈ Analyzer.used (Analyzer.scanFiles path_relative this w files)
  ↔ ∃ file specifier,
      file ∈ files ∧ specifier ∈ references file ∧ derivedFrom (platform w) x specifier.
Proof.
  unfold Analyzer.scanFiles. rewrite elem_of_scan. simpl.
  split; [intros [?%elem_of_empty|?]; done | by right].
Qed.

(** X4.  The usage set after the loop over the files holds exactly the
    identifiers derived from the module specifiers of the files that could
    be parsed: [x] is in it if and only if some file has an import,
    re-export, [require] or dynamic [import] of a specifier that is not a
    path and of which [x] is the package name or the type-declaration
    name. *)
Theorem direct_usage_iff (this : Analyzer.t) (w : World) (files : list SourceFile)
    (x : string) :
  x ∈ Analyzer.used (Analyzer.scanFiles path_relative this w files)
  ↔ ∃ file specifier,
      file ∈ files ∧ specifier ∈ references file ∧ derivedFrom (platform w) x specifier.
Proof.
  unfold Analyzer.scanFiles. rewrite elem_of_scan. simpl.
  split; [intros [?%elem_of_empty|?]; done | by right].
Qed.

End DirectUsage.

(** ** What the verdicts depend on *)

Lemma findUsedDependencies_fst (path_relative : string → string → string)
    (this : Analyzer.t) (w : World) (files : list SourceFile) :
  fst (Analyzer.findUsedDependencies path_relative this w files)
  = let used :=
      Analyzer.reactDom (Analyzer.used (Analyzer.scanFiles path_relative this w files)) in
    if (0 <? size (Analyzer.usedScopesOf used))%nat then
      match Analyzer.getDependencies this w with
      | Ok deps =>
          Ok (fold_left (Analyzer.shareScope (Analyzer.usedScopesOf used))
                (JsObject.ownKeys deps) used)
      | Throw err => Throw err
      end
    else Ok used.
Proof.
  unfold Analyzer.findUsedDependencies. simpl.
  destruct (0 <? size _)%nat; [|done].
  by destruct (Analyzer.getDependencies this w).
Qed.

Lemma analyze_fst (path_relative : string → string → string)
    (this : Analyzer.t) (w : World) :
  fst (Analyzer.analyze path_relative this w)
  = match Analyzer.getDependencies this w with
    | Ok deps =>
        match fst (Analyzer.findUsedDependencies path_relative this w (sourceFiles w)) with
        | Ok usedDeps => Ok (map (Analyzer.verdict this usedDeps) (JsObject.ownKeys deps))
        | Throw err => Throw err
        end
    | Throw err => Throw err
    end.
Proof.
  unfold Analyzer.analyze, Analyzer.getSourceFiles.
  destruct (Analyzer.getDependencies this w); [|done].
  by destruct (Analyzer.findUsedDependencies _ _ _ _) as [[?|?] ?].
Qed.

(** The verdicts are determined by the path flavour, the manifest, the set
    of source files, the dev flag and the ignore set. *)
Lemma analyze_ext (pr pr' : string → string → string) (this this' : Analyzer.t)
    (w w' : World) :
  platform w = platform w' → manifest w = manifest w' →
  Analyzer.checkDevDeps this = Analyzer.checkDevDeps this' →
  Analyzer.ignore this = Analyzer.ignore this' →
  (∀ file, file ∈ sourceFiles w ↔ file ∈ sourceFiles w') →
  fst (Analyzer.analyze pr this w) = fst (Analyzer.analyze pr' this' w').
Proof.
  intros Hp Hm Hdev Hig Hfiles.
  assert (Analyzer.getDependencies this w = Analyzer.getDependencies this' w') as Hdeps.
  { unfold Analyzer.getDependencies. by rewrite Hm, Hdev. }
  assert (Analyzer.used (Analyzer.scanFiles pr this w (sourceFiles w))
          = Analyzer.used (Analyzer.scanFiles pr' this' w' (sourceFiles w'))) as Hscan.
  { apply set_eq. intros x. rewrite !elem_of_scanFiles, Hp.
    by setoid_rewrite Hfiles. }
  rewrite !analyze_fst, !findUsedDependencies_fst, Hdeps, Hscan. simpl.
  destruct (Analyzer.getDependencies this' w') as [deps|]; [|done].
  assert (∀ usedDeps, map (Analyzer.verdict this usedDeps) (JsObject.ownKeys deps)
                      = map (Analyzer.verdict this' usedDeps) (JsObject.ownKeys deps))
    as Hverdict.
  { intros usedDeps. apply map_ext. intros name. unfold Analyzer.verdict. by rewrite Hig. }
  destruct (0 <? size _)%nat; by rewrite Hverdict.
Qed.

(** X5.  The order of the source files, and how often a file is listed, do
    not matter: with the same files the verdicts of [analyze] are the
    same. *)
Theorem file_order_is_irrelevant (path_relative : string → string → string)
    (this : Analyzer.t) (w : World) (files : list SourceFile) :
  (∀ file, file ∈ files ↔ file ∈ sourceFiles w) →
  Analyzer.used (Analyzer.scanFiles path_relative this w files)
    = Analyzer.used (Analyzer.scanFiles path_relative this w (sourceFiles w)) ∧
  fst (Analyzer.analyze path_relative this (withSourceFiles w files))
    = fst (Analyzer.analyze path_relative this w).
Proof.
  intros Hfiles. split.
  - apply set_eq. intros x. rewrite !elem_of_scanFiles. by setoid_rewrite Hfiles.
  - by apply analyze_ext.
Qed.

(** The three files of the broken project, reversed and with one repeated. *)
Lemma file_order_is_irrelevant_witness :
  Analyzer.used (Analyzer.scanFiles relativeName defaultAnalyzer brokenProject
                   [lastFile; brokenFile; goodFile; lastFile])
    = Analyzer.used (Analyzer.scanFiles relativeName defaultAnalyzer brokenProject
                       (sourceFiles brokenProject)) ∧
  fst (Analyzer.analyze relativeName defaultAnalyzer
         (withSourceFiles brokenProject [lastFile; brokenFile; goodFile; lastFile]))
    = fst (Analyzer.analyze relativeName defaultAnalyzer brokenProject).
Proof.
  apply (file_order_is_irrelevant relativeName defaultAnalyzer brokenProject
           [lastFile; brokenFile; goodFile; lastFile]).
  intros file. unfold brokenProject. simpl. set_solver.
Defined.



(** ** The usage set after the heuristics *)

Lemma elem_of_reactDom (used : gset string) (x : string) :
  x ∈ Analyzer.reactDom used ↔ x ∈ used ∨ (x = "react-dom" ∧ "react" ∈ used).
Proof.
  unfold Analyzer.reactDom. case_bool_decide; [|naive_solver].
  rewrite elem_of_union, elem_of_singleton. naive_solver.
Qed.

Lemma elem_of_usedScopesOf_iff (used : gset string) (scope : string) :
  scope ∈ Analyzer.usedScopesOf used
  ↔ ∃ y, y ∈ used ∧ JsString.startsWith y "@" = true ∧ Analyzer.scopeOf y = scope.
Proof.
  unfold Analyzer.usedScopesOf. rewrite elem_of_map.
  setoid_rewrite elem_of_filter. naive_solver.
Qed.

Lemma elem_of_shareScopes (usedScopes used : gset string) (keys : list string) (x : string) :
  x ∈ fold_left (Analyzer.shareScope usedScopes) keys used
  ↔ x ∈ used
    ∨ (x ∈ keys ∧ JsString.startsWith x "@" = true ∧ Analyzer.scopeOf x ∈ usedScopes).
Proof.
  revert used. induction keys as [|k keys IH]; intros used; cbn [fold_left].
  - rewrite elem_of_nil. naive_solver.
  - rewrite IH, elem_of_cons. unfold Analyzer.shareScope.
    destruct (JsString.startsWith k "@") eqn:Hat.
    + case_bool_decide as Hk.
      * rewrite elem_of_union, elem_of_singleton. naive_solver.
      * split; [naive_solver|].
        intros [?|([->|?] & ? & ?)]; [by left | done | right; done].
    + split; [naive_solver|].
      intros [?|([->|?] & ? & ?)]; [by left | congruence | right; done].
Qed.

Section FinalUsage.

Variable path_relative : string → string → string.

(** [findUsedDependencies] with a readable manifest. *)
Lemma findUsedDependencies_Ok (this : Analyzer.t) (w : World) (files : list SourceFile)
    (deps : JsObject.t string) :
  Analyzer.getDependencies this w = Ok deps →
  ∃ usedDeps,
    Analyzer.findUsedDependencies path_relative this w files
      = (Ok usedDeps, Analyzer.log (Analyzer.scanFiles path_relative this w files)) ∧
    ∀ x, x ∈ usedDeps
         ↔ x ∈ Analyzer.reactDom
                 (Analyzer.used (Analyzer.scanFiles path_relative this w files))
           ∨ (x ∈ JsObject.ownKeys deps ∧ JsString.startsWith x "@" = true ∧
              Analyzer.scopeOf x
                ∈ Analyzer.usedScopesOf
                    (Analyzer.reactDom
                       (Analyzer.used (Analyzer.scanFiles path_relative this w files)))).
Proof.
  intros Hdeps. unfold Analyzer.findUsedDependencies. rewrite Hdeps.
  destruct (0 <? size _)%nat eqn:Hsize.
  - eexists. split; [done|]. intros x. apply elem_of_shareScopes.
  - eexists. split; [done|]. intros x. split; [by left|].
    intros [?|(_ & _ & Hscope)]; [done|].
    by rewrite (usedScopesOf_size _ _ Hscope) in Hsize.
Qed.

(** X7.  With a readable manifest, [findUsedDependencies] returns a usage
    set that holds exactly: the identifiers derived from the files;
    [react-dom], when [react] is among them; and every declared name that
    starts with [@] and has the scope of one of them.  So a name without a
    scope, other than [react-dom], is in the usage set only if a file
    refers to it. *)
Theorem usage_set_iff (this : Analyzer.t) (w : World) (files : list SourceFile)
    (deps : JsObject.t string) :
  Analyzer.getDependencies this w = Ok deps →
  ∃ usedDeps out,
    Analyzer.findUsedDependencies path_relative this w files = (Ok usedDeps, out) ∧
    (∀ x, x ∈ usedDeps
          ↔ x ∈ Analyzer.used (Analyzer.scanFiles path_relative this w files)
            ∨ (x = "react-dom"
               ∧ "react" ∈ Analyzer.used (Analyzer.scanFiles path_relative this w files))
            ∨ (x ∈ JsObject.ownKeys deps ∧ JsString.startsWith x "@" = true ∧
               ∃ y, y ∈ Analyzer.used (Analyzer.scanFiles path_relative this w files)
                    ∧ JsString.startsWith y "@" = true
                    ∧ Analyzer.scopeOf y = Analyzer.scopeOf x)) ∧
    (∀ x, JsString.startsWith x "@" = false → x ≠ "react-dom" →
          x ∈ usedDeps
          ↔ x ∈ Analyzer.used (Analyzer.scanFiles path_relative this w files)).
Proof.
  intros Hdeps.
  destruct (findUsedDependencies_Ok this w files deps Hdeps) as (usedDeps & Hfind & Hiff).
  exists usedDeps, (Analyzer.log (Analyzer.scanFiles path_relative this w files)).
  split; [done|].
  assert (∀ x, x ∈ usedDeps
          ↔ x ∈ Analyzer.used (Analyzer.scanFiles path_relative this w files)
            ∨ (x = "react-dom"
               ∧ "react" ∈ Analyzer.used (Analyzer.scanFiles path_relative this w files))
            ∨ (x ∈ JsObject.ownKeys deps ∧ JsString.startsWith x "@" = true ∧
               ∃ y, y ∈ Analyzer.used (Analyzer.scanFiles path_relative this w files)
                    ∧ JsString.startsWith y "@" = true
                    ∧ Analyzer.scopeOf y = Analyzer.scopeOf x)) as Hall.
  { intros x. rewrite Hiff, elem_of_usedScopesOf_iff.
    setoid_rewrite elem_of_reactDom. split.
    - intros [[?|?]|(Hx & Hat & y & Hy & Hy' & Hs)]; [by left | by right; left |].
      destruct Hy as [Hy|[-> _]]; [|done]. right; right. eauto 10.
    - intros [?|[?|(Hx & Hat & y & Hy & Hy' & Hs)]]; [by left; left | by left; right |].
      right. eauto 10. }
  split; [done|].
  intros x Hx Hne. rewrite Hall. split; [|by left].
  intros [?|[[? _]|(_ & Hat & _)]]; [done | done | congruence].
Qed.

End FinalUsage.

(** The acme project: [@acme/icons] enters by its scope, [leftpad] does not. *)
Lemma usage_set_iff_witness :
  ∃ usedDeps out,
    Analyzer.findUsedDependencies relativeName defaultAnalyzer acmeProject
      (sourceFiles acmeProject) = (Ok usedDeps, out) ∧
    (∀ x, x ∈ usedDeps
          ↔ x ∈ Analyzer.used (Analyzer.scanFiles relativeName defaultAnalyzer acmeProject
                                 (sourceFiles acmeProject))
            ∨ (x = "react-dom"
               ∧ "react" ∈ Analyzer.used (Analyzer.scanFiles relativeName defaultAnalyzer
                                            acmeProject (sourceFiles acmeProject)))
            ∨ (x ∈ ["@acme/button"; "@acme/icons"; "leftpad"]
               ∧ JsString.startsWith x "@" = true ∧
               ∃ y, y ∈ Analyzer.used (Analyzer.scanFiles relativeName defaultAnalyzer
                                         acmeProject (sourceFiles acmeProject))
                    ∧ JsString.startsWith y "@" = true
                    ∧ Analyzer.scopeOf y = Analyzer.scopeOf x)) ∧
    (∀ x, JsString.startsWith x "@" = false → x ≠ "react-dom" →
          x ∈ usedDeps
          ↔ x ∈ Analyzer.used (Analyzer.scanFiles relativeName defaultAnalyzer acmeProject
                                 (sourceFiles acmeProject))).
Proof.
  apply (usage_set_iff relativeName defaultAnalyzer acmeProject (sourceFiles acmeProject)
           [("@acme/button", "1.0.0"); ("@acme/icons", "1.0.0"); ("leftpad", "*")]).
  reflexivity.
Defined.




Section Heuristics.

Variable path_relative : string → string → string.




End Heuristics.




(** ** The [scan] command *)

Lemma diagnostic_logTo (l : LogLevel) (msg : string) (set : Analyzer.Scan) :
  l = LevelDebug ∨ l = LevelWarn →
  Forall diagnostic (Analyzer.log set) →
  Forall diagnostic (Analyzer.log (Analyzer.logTo l msg set)).
Proof.
  intros Hl Hset. simpl. apply Forall_app. split; [done|].
  constructor; [exact Hl | constructor].
Qed.

Lemma diagnostic_addDependency (this : Analyzer.t) (w : World) (set : Analyzer.Scan)
    (importPath : string) :
  Forall diagnostic (Analyzer.log set) →
  Forall diagnostic (Analyzer.log (Analyzer.addDependency this w set importPath)).
Proof.
  intros Hset. unfold Analyzer.addDependency.
  destruct (JsString.startsWith importPath "."); [done|].
  destruct (Path.isAbsolute (platform w) importPath); [done|].
  destruct (Analyzer.verbose this); [|done].
  apply (diagnostic_logTo LevelDebug); [by left | done].
Qed.

Lemma diagnostic_visits (this : Analyzer.t) (w : World) (nodes : list Node)
    (set : Analyzer.Scan) :
  Forall diagnostic (Analyzer.log set) →
  Forall diagnostic (Analyzer.log (fold_left (Analyzer.visit this w) nodes set)).
Proof.
  revert set. induction nodes as [|node nodes IH]; intros set Hset; simpl; [done|].
  apply IH. rewrite visit_reference.
  destruct (reference node); [by apply diagnostic_addDependency | done].
Qed.

Lemma diagnostic_scan (path_relative : string → string → string) (this : Analyzer.t)
    (w : World) (files : list SourceFile) (set : Analyzer.Scan) :
  Forall diagnostic (Analyzer.log set) →
  Forall diagnostic
    (Analyzer.log (fold_left (Analyzer.scanFile path_relative this w) files set)).
Proof.
  revert set. induction files as [|file files IH]; intros set Hset; simpl; [done|].
  apply IH. unfold Analyzer.scanFile.
  assert (Forall diagnostic
            (Analyzer.log
               (if Analyzer.verbose this
                then Analyzer.logTo LevelDebug
                       ("Scanning file: "
                          +:+ path_relative (Analyzer.rootDir this) (path file)) set
                else set))) as Hset'.
  { destruct (Analyzer.verbose this); [|done].
    apply (diagnostic_logTo LevelDebug); [by left | done]. }
  destruct (parsed file) as [why | nodes].
  - apply (diagnostic_logTo LevelWarn); [by right | done].
  - by apply diagnostic_visits.
Qed.

(** The analyzer only logs diagnostics. *)
Lemma diagnostic_analyze (path_relative : string → string → string) (this : Analyzer.t)
    (w : World) :
  Forall diagnostic (snd (Analyzer.analyze path_relative this w)).
Proof.
  unfold Analyzer.analyze.
  destruct (Analyzer.getDependencies this w); [|by constructor].
  pose proof (findUsedDependencies_log path_relative this w (Analyzer.getSourceFiles this w))
    as Hlog.
  destruct (Analyzer.findUsedDependencies _ _ _ _) as [[?|?] out]; simpl in *; subst out;
    apply diagnostic_scan; constructor.
Qed.




Lemma plain_not_diagnostic (t : string) (l : list LogEntry) :
  Forall diagnostic l → mkLog LevelPlain t ∉ l.
Proof.
  intros Hl Hin. rewrite Forall_forall in Hl.
  destruct (Hl _ Hin) as [?|?]; discriminate.
Qed.

(** The names reported as unused are the declared names that are neither
    ignored nor in the usage set. *)
Lemma unusedNames_verdicts (this : Analyzer.t) (usedDeps : gset string)
    (keys : list string) (name : string) :
  name ∈ unusedNames (map (Analyzer.verdict this usedDeps) keys)
  ↔ name ∈ keys ∧ (name ∉ Analyzer.ignore this) ∧ (name ∉ usedDeps).
Proof.
  unfold unusedNames. rewrite elem_of_list_map. split.
  - intros (v & -> & Hv). apply list_elem_of_In, filter_In in Hv as [Hv Hunused].
    apply list_elem_of_In, elem_of_list_map in Hv as (k & -> & Hk).
    rewrite verdict_name. split; [done|].
    apply negb_true_iff, not_true_iff_false in Hunused.
    rewrite verdict_isUsed in Hunused. naive_solver.
  - intros (Hk & Hig & Hused). exists (Analyzer.verdict this usedDeps name).
    split; [by rewrite verdict_name|].
    apply list_elem_of_In, filter_In. split.
    + apply list_elem_of_In, elem_of_list_map. eauto.
    + apply negb_true_iff, not_true_iff_false. rewrite verdict_isUsed. naive_solver.
Qed.

Lemma elem_of_report (unused : list DependencyUsage.t) (name : string) :
  mkLog LevelPlain ("- " +:+ name) ∈ Cli.report unused
  ↔ name ∈ map DependencyUsage.name unused.
Proof.
  assert (mkLog LevelPlain ("- " +:+ name)
            ∈ map (fun dep => mkLog LevelPlain ("- " +:+ DependencyUsage.name dep)) unused
          ↔ name ∈ map DependencyUsage.name unused) as Hlines.
  { rewrite !elem_of_list_map. split.
    - intros (v & [= Hv] & Hin). exists v. split; [|done].
      exact Hv.
    - intros (v & -> & Hin). eauto. }
  unfold Cli.report. destruct unused as [|r unused].
  - split; [|by intros ?%elem_of_nil].
    intros [=]%list_elem_of_singleton.
  - cbn [length Nat.eqb]. rewrite elem_of_cons, Hlines. split; [|by right].
    by intros [[=]|?].
Qed.

Section ScanReport.

Variable path_relative : string → string → string.
Variable JSON_parse : string → option json.

(** The lines [- name] of the output are the names of the unused verdicts. *)
Lemma scanAction_plain (options : Cli.ScanOptions) (w : World) (name : string) :
  mkLog LevelPlain ("- " +:+ name)
    ∈ Cli.output (Cli.scanAction path_relative JSON_parse options w)
  ↔ ∃ results,
      fst (Analyzer.analyze path_relative
             (Analyzer.new
                (AnalyzerOptions.mk (cwd w) (Cli.dev options)
                   (Some (ignoredNames
                            (fst (Config.loadConfig JSON_parse w (Cli.ignore options)))))
                   None)) w) = Ok results
      ∧ name ∈ unusedNames results.
Proof.
  unfold Cli.scanAction.
  pose proof (loadConfig_warnings JSON_parse w (Cli.ignore options)) as Hout0.
  destruct (Config.loadConfig JSON_parse w (Cli.ignore options)) as [config out0].
  cbn [fst snd] in *.
  pose proof (diagnostic_analyze path_relative
                (Analyzer.new (AnalyzerOptions.mk (cwd w) (Cli.dev options)
                                 (Some (ignoredNames config)) None)) w) as Hout2.
  destruct (Analyzer.analyze _ _ _) as [[results|err] out2]; cbn [fst snd Cli.output] in *.
  - rewrite !elem_of_app, elem_of_report. split.
    + intros [Hin|[Hin|[Hin|[Hin|Hin]]]].
      * rewrite Forall_forall in Hout0. by specialize (Hout0 _ Hin).
      * destruct (default false (Cli.verbose options)); set_solver.
      * set_solver.
      * by apply plain_not_diagnostic in Hin.
      * eauto.
    + intros (? & [= <-] & Hin). by do 4 right.
  - split; [|by intros (? & [=] & _)].
    rewrite !elem_of_app. intros [Hin|[Hin|[Hin|[Hin|[Hin|Hin]]]]].
    + rewrite Forall_forall in Hout0. by specialize (Hout0 _ Hin).
    + destruct (default false (Cli.verbose options)); set_solver.
    + set_solver.
    + by apply plain_not_diagnostic in Hin.
    + set_solver.
    + destruct (default false (Cli.verbose options)); set_solver.
Qed.


(** X12.  [scan] never prints the line [- name] for a name of the ignore
    list that [loadConfig] returns; in particular not for [@types/node],
    [typescript] and [ts-node]. *)
Theorem scan_never_reports_ignored (options : Cli.ScanOptions) (w : World)
    (name : string) :
  name ∈ Config.defaultIgnore
  ∨ JString name
      ∈ Config.ignore (fst (Config.loadConfig JSON_parse w (Cli.ignore options))) →
  mkLog LevelPlain ("- " +:+ name)
    ∉ Cli.output (Cli.scanAction path_relative JSON_parse options w).
Proof.
  intros Hname.
  assert (JString name
            ∈ Config.ignore (fst (Config.loadConfig JSON_parse w (Cli.ignore options))))
    as Hig.
  { destruct Hname as [Hdefault|?]; [|done]. rewrite loadConfig_ignore.
    apply elem_of_app. left. apply elem_of_list_map. eauto. }
  rewrite scanAction_plain. intros (results & Hrun & Hin).
  rewrite analyze_fst in Hrun.
  destruct (Analyzer.getDependencies _ w) as [deps|]; [|done].
  destruct (fst (Analyzer.findUsedDependencies _ _ _ _)) as [usedDeps|]; [|done].
  injection Hrun as <-. apply unusedNames_verdicts in Hin as (_ & Hnot & _).
  apply Hnot. simpl. by rewrite elem_of_list_to_set, elem_of_ignoredNames.
Qed.

End ScanReport.


(** [leftpad] is listed in [.unusedignore]. *)
Lemma scan_never_reports_ignored_witness :
  mkLog LevelPlain ("- " +:+ "leftpad")
    ∉ Cli.output (Cli.scanAction relativeName noJson (Cli.mkScanOptions None None None)
                    ignoreFileProject).
Proof.
  apply (scan_never_reports_ignored relativeName noJson (Cli.mkScanOptions None None None)
           ignoreFileProject "leftpad").
  right. apply list_elem_of_In. vm_compute. tauto.
Defined.

(** ** The ignore files *)




(** X14.  [--ignore file] replaces the two default configuration files by
    [file]: the ignore list is the baseline followed by what [file]
    declares, and [.unusedignore] and [.unusedrc.json] are not looked at.
    An empty [file] counts as no option at all, and without the option the
    list is the baseline, then what [.unusedignore] declares, then what
    [.unusedrc.json] declares. *)
Theorem ignore_option_replaces_the_defaults (JSON_parse : string → option json)
    (w : World) (file : string) :
  file ≠ EmptyString →
  Config.ignore (fst (Config.loadConfig JSON_parse w (Some file)))
    = map JString Config.defaultIgnore ++ declaredEntries JSON_parse w file ∧
  Config.loadConfig JSON_parse w (Some EmptyString) = Config.loadConfig JSON_parse w None ∧
  Config.ignore (fst (Config.loadConfig JSON_parse w None))
    = map JString Config.defaultIgnore
        ++ declaredEntries JSON_parse w ".unusedignore"
        ++ declaredEntries JSON_parse w ".unusedrc.json".
Proof.
  intros Hfile. rewrite !loadConfig_ignore. split_and!.
  - unfold Config.possibleConfigFiles, JsString.truthy.
    apply String.eqb_neq in Hfile as ->. cbn [negb map concat]. by rewrite app_nil_r.
  - done.
  - cbn [Config.possibleConfigFiles map concat]. by rewrite app_nil_r.
Qed.

(** The project has an [.unusedignore] with [leftpad]; the option names
    [.unusedrc.json], which is not valid JSON. *)
Lemma ignore_option_replaces_the_defaults_witness :
  Config.ignore (fst (Config.loadConfig noJson ignoreFileProject (Some ".unusedrc.json")))
    = map JString Config.defaultIgnore ++ declaredEntries noJson ignoreFileProject ".unusedrc.json" ∧
  Config.loadConfig noJson ignoreFileProject (Some EmptyString)
    = Config.loadConfig noJson ignoreFileProject None ∧
  Config.ignore (fst (Config.loadConfig noJson ignoreFileProject None))
    = map JString Config.defaultIgnore
        ++ declaredEntries noJson ignoreFileProject ".unusedignore"
        ++ declaredEntries noJson ignoreFileProject ".unusedrc.json".
Proof.
  apply (ignore_option_replaces_the_defaults noJson ignoreFileProject ".unusedrc.json").
  discriminate.
Defined.

Lemma loadFile_snd (JSON_parse : string → option json) (w : World) (config : Config.t)
    (out : list LogEntry) (file : string) (e : LogEntry) :
  e ∈ snd (Config.loadFile JSON_parse w (config, out) file)
  ↔ e ∈ out ∨ (e = Config.warnParse file ∧ unusable JSON_parse w file).
Proof.
  unfold Config.loadFile, unusable.
  destruct (configFile w file) as [| |content]; cbn [snd].
  - naive_solver.
  - rewrite elem_of_app, list_elem_of_singleton. naive_solver.
  - destruct (JsString.endsWith file ".json"); cbn [negb snd]; [|naive_solver].
    destruct (JSON_parse content) as [[| | | | |members]|] eqn:Hparse; cbn [snd];
      try (rewrite elem_of_app, list_elem_of_singleton);
      try (destruct (JsObject.get "ignore" (JsObject.fromEntries members))
             as [[| | | | |]|]; cbn [snd]);
      naive_solver.
Qed.

Lemma loadFiles_snd (JSON_parse : string → option json) (w : World)
    (files : list string) (config : Config.t) (out : list LogEntry) (e : LogEntry) :
  e ∈ snd (fold_left (Config.loadFile JSON_parse w) files (config, out))
  ↔ e ∈ out ∨ ∃ file, file ∈ files ∧ e = Config.warnParse file ∧ unusable JSON_parse w file.
Proof.
  revert config out. induction files as [|file files IH]; intros config out;
    cbn [fold_left].
  - cbn [snd]. split; [by left|]. by intros [?|(? & ?%elem_of_nil & _)].
  - pose proof (loadFile_snd JSON_parse w config out file e) as Hfile.
    destruct (Config.loadFile JSON_parse w (config, out) file) as [config' out'].
    cbn [snd] in Hfile. rewrite IH, Hfile. split.
    + intros [[?|[-> ?]]|(f & ? & ?)]; [by left|right..].
      * exists file. split; [left|done].
      * exists f. split; [by right|done].
    + intros [?|(f & [->|?]%elem_of_cons & ? & ?)]; [by left; left| |].
      * left. by right.
      * right. by exists f.
Qed.

(** X15.  [loadConfig] warns [Failed to parse config file: file] for
    exactly the possible configuration files that exist and cannot be
    used: reading the file fails, or the file is a [.json] file whose
    content is not valid JSON or is [null].  It prints nothing else; a
    missing file, and a JSON file without an [ignore] array, are passed
    over in silence. *)
Theorem config_warnings_iff (JSON_parse : string → option json) (w : World)
    (ignoreFile : option string) (e : LogEntry) :
  e ∈ snd (Config.loadConfig JSON_parse w ignoreFile)
  ↔ ∃ file,
      file ∈ Config.possibleConfigFiles ignoreFile ∧
      e = mkLog LevelWarn ("Failed to parse config file: " +:+ file) ∧
      (configFile w file = ConfigUnreadable
       ∨ ∃ content,
           configFile w file = ConfigContent content ∧
           JsString.endsWith file ".json" = true ∧
           (JSON_parse content = None ∨ JSON_parse content = Some JNull)).
Proof.
  unfold Config.loadConfig. rewrite loadFiles_snd. split.
  - intros [?%elem_of_nil|(file & Hfile & -> & Hcases)]; [done|]. by exists file.
  - intros (file & Hfile & -> & Hcases). right. by exists file.
Qed.

(** ** The [clean] command *)



Section Clean.

Variable path_relative : string → string → string.
Variable JSON_parse : string → option json.


(** X16.  With [--dry-run], [clean] leaves the project directory as it
    is: no backup is taken and the manifest is not written. *)
Theorem clean_dry_run_changes_nothing (packageName : option string)
    (options : CliClean.Options) (w : World) :
  CliClean.dryRun options = Some true →
  CliClean.disk (CliClean.cleanAction path_relative JSON_parse packageName options w) = w.
Proof.
  intros Hdry. unfold CliClean.cleanAction.
  destruct (Config.loadConfig JSON_parse w (CliClean.ignore options)) as [config out0].
  destruct (Analyzer.analyze _ _ _) as [[results|err] out]; [|done].
  destruct (CliClean.target _ _) as [toRemove|]; [|done].
  destruct (length toRemove =? 0)%nat; [done|]. by rewrite Hdry.
Qed.



End Clean.


(** [--dry-run] on the lodash project. *)
Lemma clean_dry_run_changes_nothing_witness :
  CliClean.disk
    (CliClean.cleanAction relativeName noJson None
       (CliClean.mkOptions (Some true) None None None) lodashProject)
  = lodashProject.
Proof.
  apply (clean_dry_run_changes_nothing relativeName noJson None
           (CliClean.mkOptions (Some true) None None None) lodashProject).
  reflexivity.
Defined.



(** ** [clean], then [scan] *)




Section CleanThenScan.

Variable path_relative : string → string → string.
Variable JSON_parse : string → option json.



End CleanThenScan.


